(** * A shallow embedding of [qrngsim.py]

    The script benchmarks three sources of random bits (a local Qiskit
    simulation, the ANU web API and Python's [secrets]) and plots the
    measured times.  Everything the script talks to -- the simulator
    backend, the HTTP endpoint, the operating system's entropy and the
    performance counter -- is gathered in a record [world]; the code of
    the script itself is translated function by function.

    Conventions.
    - A Python [int] is a [Z]; [//] is [Z.div] (both round towards
      minus infinity for a positive divisor).
    - A Python [str] is a [string]; ["".join(xs)] is [String.concat ""].
    - A [bytes] object is a [list Byte.byte].
    - A Python call that may raise returns a [result]; [try]/[except
      Exception] is [try_except_Exception], which lets the exceptions
      that derive from [BaseException] only go through.
    - Readings of [time.perf_counter()] are exact rationals, in seconds.
      The script's floats are differences and quotients of such
      readings; the two facts about them that are used below, the sign
      of [end - start] and whether it is zero, are the same for the
      rounded and for the exact difference. *)

From Stdlib Require Import ZArith QArith Qabs List Bool Lia.
From Stdlib Require Import Strings.Ascii Strings.String Strings.Byte DecimalString.
Import ListNotations.

Open Scope string_scope.
Open Scope Z_scope.

(** ** Exceptions and results *)

(** A raised Python exception: the name of its class, whether the class
    derives from [Exception] (and is therefore caught by
    [except Exception]), and the text [str(e)]. *)
Record exn : Type := mk_exn {
  exn_type : string;
  exn_is_Exception : bool;
  exn_str : string
}.

Inductive result (A : Type) : Type :=
| Ok (a : A)
| Raise (e : exn).
Arguments Ok {A} a.
Arguments Raise {A} e.

Definition bind {A B : Type} (m : result A) (k : A -> result B) : result B :=
  match m with
  | Ok a => k a
  | Raise e => Raise e
  end.

Declare Scope py_scope.
Delimit Scope py_scope with py.
Notation "x <- m ;; k" := (bind m (fun x => k))
  (at level 61, m at next level, right associativity) : py_scope.
Open Scope py_scope.

Fixpoint mapM {A B : Type} (f : A -> result B) (l : list A) : result (list B) :=
  match l with
  | [] => Ok []
  | a :: l' => b <- f a ;; bs <- mapM f l' ;; Ok (b :: bs)
  end.

(** The exceptions the interpreter itself raises in this script.  The
    message texts are CPython's; no statement below depends on them. *)
Definition KeyError (key : string) : exn :=
  mk_exn "KeyError" true ("'" ++ key ++ "'").
Definition TypeError (msg : string) : exn := mk_exn "TypeError" true msg.
Definition ValueError (msg : string) : exn := mk_exn "ValueError" true msg.
Definition ZeroDivisionError : exn :=
  mk_exn "ZeroDivisionError" true "float division by zero".

(** ** Strings *)

Module Str.

Fixpoint repeat (c : ascii) (n : nat) : string :=
  match n with
  | O => EmptyString
  | S n' => String c (repeat c n')
  end.

Fixpoint take (n : nat) (s : string) : string :=
  match n, s with
  | S n', String c s' => String c (take n' s')
  | _, _ => EmptyString
  end.

(** [s[:n]]: the first [n] characters for [n >= 0], all but the last
    [-n] characters for [n < 0]. *)
Definition slice_to (s : string) (n : Z) : string :=
  if n <? 0
  then take (Z.to_nat (Z.of_nat (String.length s) + n)) s
  else take (Z.to_nat n) s.

(** [needle in hay]. *)
Fixpoint contains (needle hay : string) : bool :=
  String.prefix needle hay ||
  match hay with
  | EmptyString => false
  | String _ hay' => contains needle hay'
  end.

(** [f"{s:<w}"]: [s] padded with spaces on the right to [w] characters. *)
Definition ljust (s : string) (w : nat) : string :=
  s ++ repeat " "%char (w - String.length s).

Fixpoint forallb (p : ascii -> bool) (s : string) : bool :=
  match s with
  | EmptyString => true
  | String c s' => p c && forallb p s'
  end.

Definition is_bit (c : ascii) : bool :=
  Ascii.eqb c "0"%char || Ascii.eqb c "1"%char.

(** A string made of the characters '0' and '1' only. *)
Definition bit_string (s : string) : bool := forallb is_bit s.

(** Any character but the capital E. *)
Definition no_E (c : ascii) : bool := negb (Ascii.eqb c "E"%char).

(** [str(n)] for an int. *)
Definition of_Z (n : Z) : string := NilZero.string_of_int (Z.to_int n).

End Str.

(** ** [f"{x:08b}"] *)

(** The binary digits of a positive number, most significant first,
    in front of [acc]. *)
Fixpoint bin_digits (p : positive) (acc : string) : string :=
  match p with
  | xH => String "1"%char acc
  | xO p' => bin_digits p' (String "0"%char acc)
  | xI p' => bin_digits p' (String "1"%char acc)
  end.

Definition bin_abs (x : Z) : string :=
  match x with
  | Z0 => "0"
  | Zpos p | Zneg p => bin_digits p EmptyString
  end.

(** [format(x, "08b")] for an int [x]: binary, zero-padded after the
    sign to a total width of eight; longer numbers are not cut. *)
Definition format_08b (x : Z) : string :=
  let sign := if x <? 0 then "-" else "" in
  let digits := bin_abs x in
  sign ++ Str.repeat "0"%char (8 - String.length sign - String.length digits)
       ++ digits.

Definition int_of_byte (b : byte) : Z := Z.of_N (Byte.to_N b).

(** ** [f"{v:.Nf}"] *)

Module Fmt.

(** The nearest integer to [q >= 0], ties to the even one. *)
Definition round_half_even (q : Q) : Z :=
  let n := Qnum q in
  let d := Zpos (Qden q) in
  let fl := n / d in
  let r2 := 2 * (n mod d) in
  if r2 <? d then fl
  else if d <? r2 then fl + 1
  else if Z.even fl then fl else fl + 1.

(** [format(v, ".Nf")]: sign, integer part and [digits] decimals of
    the magnitude rounded to that many places. *)
Definition fixed (digits : nat) (v : Q) : string :=
  let scale := 10 ^ Z.of_nat digits in
  let m := round_half_even (Qabs v * inject_Z scale) in
  let frac := Str.of_Z (m mod scale) in
  (if Qlt_le_dec v 0 then "-" else "")
    ++ Str.of_Z (m / scale)
    ++ match digits with
       | O => ""
       | _ => "." ++ Str.repeat "0"%char (digits - String.length frac) ++ frac
       end.

End Fmt.

(** ** Python dictionaries

    A [dict] keeps its keys in insertion order; assigning to a key that
    is present replaces the value where it stands. *)

Module Dict.
Section Values.
Context {V : Type}.

Definition t : Type := list (string * V).

Definition empty : t := [].

Fixpoint get (d : t) (k : string) : option V :=
  match d with
  | [] => None
  | (k', v) :: d' => if String.eqb k' k then Some v else get d' k
  end.

(** [d[k] = v] *)
Fixpoint set (d : t) (k : string) (v : V) : t :=
  match d with
  | [] => [(k, v)]
  | (k', v') :: d' =>
      if String.eqb k' k then (k', v) :: d' else (k', v') :: set d' k v
  end.

Definition keys (d : t) : list string := map fst d.
Definition values (d : t) : list V := map snd d.
Definition items (d : t) : list (string * V) := d.

(** The number of entries stored under [k]. *)
Definition count (d : t) (k : string) : nat :=
  List.length (filter (fun kv => String.eqb (fst kv) k) d).
End Values.
Arguments t : clear implicits.
End Dict.

(** ** The values [response.json()] can return *)

#[local] Set Warnings "-register-all".
Inductive pyobj : Type :=
| PNone
| PBool (b : bool)
| PInt (n : Z)
| PFloat (v : Q)
| PStr (s : string)
| PList (l : list pyobj)
| PDict (d : list (string * pyobj)).

Definition type_name (o : pyobj) : string :=
  match o with
  | PNone => "NoneType"
  | PBool _ => "bool"
  | PInt _ => "int"
  | PFloat _ => "float"
  | PStr _ => "str"
  | PList _ => "list"
  | PDict _ => "dict"
  end.

(** [o[key]] for a string [key]. *)
Definition getitem (o : pyobj) (key : string) : result pyobj :=
  match o with
  | PDict d =>
      match Dict.get d key with
      | Some v => Ok v
      | None => Raise (KeyError key)
      end
  | PList _ =>
      Raise (TypeError "list indices must be integers or slices, not str")
  | PStr _ => Raise (TypeError "string indices must be integers, not 'str'")
  | _ => Raise (TypeError ("'" ++ type_name o ++ "' object is not subscriptable"))
  end.

(** The elements [for x in o] goes through. *)
Definition iterate (o : pyobj) : result (list pyobj) :=
  match o with
  | PList l => Ok l
  | PStr s => Ok (map (fun c => PStr (String c "")) (list_ascii_of_string s))
  | PDict d => Ok (map (fun kv => PStr (fst kv)) d)
  | _ => Raise (TypeError ("'" ++ type_name o ++ "' object is not iterable"))
  end.

(** [f"{x:08b}"] for an arbitrary object: only ints (and bools, which
    are ints) know the format code [b]. *)
Definition format_obj_08b (x : pyobj) : result string :=
  match x with
  | PInt n => Ok (format_08b n)
  | PBool b => Ok (format_08b (if b then 1 else 0))
  | PFloat _ | PStr _ =>
      Raise (ValueError ("Unknown format code 'b' for object of type '"
                           ++ type_name x ++ "'"))
  | _ =>
      Raise (TypeError ("unsupported format string passed to "
                          ++ type_name x ++ ".__format__"))
  end.

(** ** The outside world *)

(** Circuits, as far as the script builds them. *)
Inductive gate : Type :=
| H (qubit : Z)
| Measure (qubit cbit : Z).

Record QuantumCircuit : Type := {
  num_qubits : Z;
  num_clbits : Z;
  gates : list gate
}.

(** An HTTP GET as [requests.get(url, params=..., timeout=...)] sends it. *)
Record request : Type := {
  req_url : string;
  req_params : list (string * pyobj);
  req_timeout : Z
}.

(** A [requests.Response], through the two methods the script calls. *)
Record response : Type := {
  raise_for_status : result unit;
  json : result pyobj
}.

Record world : Type := {
  (** the value of the [k]-th call of [time.perf_counter()] *)
  perf_counter_reading : nat -> Q;
  (** [backend.run(qc, shots=n, memory=True).result().get_memory()] *)
  aer_get_memory : QuantumCircuit -> Z -> result (list string);
  (** the [i]-th byte the operating system's random source hands out *)
  os_random_byte : nat -> byte;
  (** [requests.get] *)
  requests_get : request -> result response
}.

(** [time.perf_counter()] never goes backwards. *)
Definition monotonic_clock (w : world) : Prop :=
  forall i j : nat, (i <= j)%nat ->
    (perf_counter_reading w i <= perf_counter_reading w j)%Q.

(** [secrets.token_bytes(n)] *)
Definition token_bytes (w : world) (n : Z) : result (list byte) :=
  if n <? 0 then Raise (ValueError "negative argument not allowed")
  else Ok (map (os_random_byte w) (seq 0 (Z.to_nat n))).

(** [try: body  except Exception as e: handler(e)] *)
Definition try_except_Exception {A : Type}
    (body : result A) (handler : exn -> result A) : result A :=
  match body with
  | Ok a => Ok a
  | Raise e => if exn_is_Exception e then handler e else Raise e
  end.

(** ** The three generators *)

Module QuantumSimulatorRNG.

Definition circuit : QuantumCircuit :=
  {| num_qubits := 1; num_clbits := 1; gates := [H 0; Measure 0 0] |}.

Definition generate_bits (w : world) (num_bits : Z) : result string :=
  let qc := circuit in
  memory <- aer_get_memory w qc num_bits ;;
  Ok (String.concat "" memory).

End QuantumSimulatorRNG.

Module AnuWebQRNG.

Definition url : string := "https://qrng.anu.edu.au/API/jsonI.php".

Definition params (num_bytes : Z) : list (string * pyobj) :=
  [("length", PInt num_bytes); ("type", PStr "uint8")].

Definition the_request (num_bits : Z) : request :=
  {| req_url := url;
     req_params := params (num_bits / 8 + 1);
     req_timeout := 10 |}.

(** The body of the [try] block. *)
Definition try_body (w : world) (num_bits : Z) : result string :=
  response <- requests_get w (the_request num_bits) ;;
  _ <- raise_for_status response ;;
  body <- json response ;;
  data <- getitem body "data" ;;
  xs <- iterate data ;;
  pieces <- mapM format_obj_08b xs ;;
  let binary_string := String.concat "" pieces in
  Ok (Str.slice_to binary_string num_bits).

Definition generate_bits (w : world) (num_bits : Z) : result string :=
  try_except_Exception (try_body w num_bits)
    (fun e => Ok ("Error: " ++ exn_str e)).

End AnuWebQRNG.

Module ClassicalRNG.

Definition generate_bits (w : world) (num_bits : Z) : result string :=
  let num_bytes := num_bits / 8 + 1 in
  random_bytes <- token_bytes w num_bytes ;;
  let binary_string :=
    String.concat "" (map (fun x => format_08b (int_of_byte x)) random_bytes) in
  Ok (Str.slice_to binary_string num_bits).

End ClassicalRNG.

(** The three classes offer one method; the runner only uses that. *)
Record generator : Type := {
  generate_bits : Z -> result string
}.

(** ** Console, figure and clock *)

Inductive plot_call : Type :=
| plt_figure (figsize : Z * Z)
| plt_bar (names : list string) (heights : list Q) (color : list string)
| plt_ylabel (s : string)
| plt_title (s : string)
| plt_grid (axis linestyle : string) (alpha : Q)
| plt_text (x y : Q) (s va ha : string)
| plt_show.

(** What a run has done so far: how often the performance counter was
    read, the lines printed and the calls made to [matplotlib.pyplot],
    both oldest first. *)
Record io_state : Type := {
  clock_reads : nat;
  stdout : list string;
  pyplot : list plot_call
}.

Definition initial_state : io_state :=
  {| clock_reads := 0; stdout := []; pyplot := [] |}.

Definition io (A : Type) : Type := io_state -> result A * io_state.

Definition ret {A : Type} (a : A) : io A := fun st => (Ok a, st).

Definition io_bind {A B : Type} (m : io A) (k : A -> io B) : io B :=
  fun st =>
    match m st with
    | (Ok a, st') => k a st'
    | (Raise e, st') => (Raise e, st')
    end.

Notation "x <~ m ;; k" := (io_bind m (fun x => k))
  (at level 61, m at next level, right associativity) : py_scope.
Notation "m ;;; k" := (io_bind m (fun _ => k))
  (at level 61, right associativity) : py_scope.

Definition lift {A : Type} (r : result A) : io A := fun st => (r, st).

Definition print (s : string) : io unit :=
  fun st => (Ok tt, {| clock_reads := clock_reads st;
                       stdout := stdout st ++ [s];
                       pyplot := pyplot st |}).

Definition plt (c : plot_call) : io unit :=
  fun st => (Ok tt, {| clock_reads := clock_reads st;
                       stdout := stdout st;
                       pyplot := pyplot st ++ [c] |}).

Definition perf_counter (w : world) : io Q :=
  fun st => (Ok (perf_counter_reading w (clock_reads st)),
             {| clock_reads := S (clock_reads st);
                stdout := stdout st;
                pyplot := pyplot st |}).

Fixpoint for_each {A : Type} (body : A -> io unit) (l : list A) : io unit :=
  match l with
  | [] => ret tt
  | a :: l' => body a ;;; for_each body l'
  end.

(** ** The benchmarking engine *)

(** [a / d] with an int [a] and a float [d]. *)
Definition truediv (a : Z) (d : Q) : result Q :=
  if Qeq_bool d 0 then Raise ZeroDivisionError else Ok (inject_Z a / d)%Q.

Definition generators (w : world) : Dict.t generator :=
  [ ("Local Qiskit Sim", {| generate_bits := QuantumSimulatorRNG.generate_bits w |});
    ("Classical OS", {| generate_bits := ClassicalRNG.generate_bits w |});
    ("Remote ANU API", {| generate_bits := AnuWebQRNG.generate_bits w |}) ].

Definition failed_row (name bits : string) : string :=
  Str.ljust name 20 ++ " | FAILED     | " ++ bits.

Definition timing_row (name : string) (duration speed : Q) : string :=
  Str.ljust name 20 ++ " | " ++ Fmt.fixed 5 duration ++ " s  | "
    ++ Fmt.fixed 0 speed.

(** The [for name, gen in generators.items()] loop, from the entries
    still to visit and the [results] gathered so far. *)
Fixpoint benchmark_loop (w : world) (target_bits : Z)
    (todo : list (string * generator)) (results : Dict.t Q) : io (Dict.t Q) :=
  match todo with
  | [] => ret results
  | (name, gen) :: todo' =>
      start_time <~ perf_counter w ;;
      bits <~ lift (generate_bits gen target_bits) ;;
      end_time <~ perf_counter w ;;
      let duration := (end_time - start_time)%Q in
      if Str.contains "Error" bits then
        print (failed_row name bits) ;;;
        benchmark_loop w target_bits todo' results
      else
        speed <~ lift (truediv target_bits duration) ;;
        let results := Dict.set results name duration in
        print (timing_row name duration speed) ;;;
        benchmark_loop w target_bits todo' results
  end.

Definition newline : string := String (ascii_of_nat 10) "".

(** The three lines printed before the loop. *)
Definition header_line (target_bits : Z) : string :=
  newline ++ "--- Benchmarking Generation of " ++ Str.of_Z target_bits
          ++ " bits ---".

Definition columns_line : string :=
  Str.ljust "Method" 20 ++ " | " ++ Str.ljust "Time (sec)" 10 ++ " | "
    ++ Str.ljust "Speed (bits/s)" 15.

Definition rule_line : string := Str.repeat "-"%char 50.

(** The value of the parameter of [def run_benchmark(target_bits=1024)]
    in a call: the argument, or 1024 when the call gives none ([None]). *)
Definition target_of (arg : option Z) : Z :=
  match arg with
  | Some n => n
  | None => 1024
  end.

Definition run_benchmark (w : world) (arg : option Z) : io (Dict.t Q) :=
  let target_bits := target_of arg in
  let generators := generators w in
  let results := Dict.empty in
  print (header_line target_bits) ;;;
  print columns_line ;;;
  print rule_line ;;;
  benchmark_loop w target_bits (Dict.items generators) results.

(** ** Visualization *)

(** A bar of the chart: [plt.bar] puts the [i]-th category at [i], with
    the default width 0.8 and centred. *)
Record Rectangle : Type := {
  get_x : Q;
  get_width : Q;
  get_height : Q
}.

Definition bar_container (heights : list Q) : list Rectangle :=
  map (fun ih : nat * Q =>
         {| get_x := (inject_Z (Z.of_nat (fst ih)) - (4 # 10))%Q;
            get_width := (8 # 10)%Q;
            get_height := snd ih |})
      (combine (seq 0 (List.length heights)) heights).

(** The label the loop over the bars writes above a bar. *)
Definition annotation (bar : Rectangle) : plot_call :=
  let yval := get_height bar in
  plt_text (get_x bar + get_width bar / 2)%Q yval
           (Fmt.fixed 4 yval ++ "s") "bottom" "center".

Definition plot_results (results : Dict.t Q) : io unit :=
  let names := Dict.keys results in
  let times := Dict.values results in
  plt (plt_figure (10, 6)) ;;;
  plt (plt_bar names times ["#6929c4"; "#009d9a"; "#1192e8"]) ;;;
  let bars := bar_container times in
  plt (plt_ylabel "Time to Generate (Seconds)") ;;;
  plt (plt_title "QRNG Simulation Time Comparison") ;;;
  plt (plt_grid "y" "--" (7 # 10)) ;;;
  for_each (fun bar => plt (annotation bar)) bars ;;;
  plt plt_show.

(** ** The script *)

(** What the operating system hands to the interpreter. *)
Record process : Type := {
  argv : list string;
  environ : list (string * string)
}.

(** The statements under [if __name__ == "__main__":]. *)
Definition main (w : world) : io unit :=
  data <~ run_benchmark w (Some 2000) ;;
  plot_results data.

(** The module's top level, for a value of [__name__]. *)
Definition module_body (dunder_name : string) (w : world) : io unit :=
  if String.eqb dunder_name "__main__" then main w else ret tt.

(** [python qrngsim.py]: the module runs under the name [__main__];
    nothing in it looks at the command line or at the environment. *)
Definition run_script (p : process) (w : world) : result unit * io_state :=
  module_body "__main__" w initial_state.

(** The time between the reading number [k] and the next one. *)
Definition elapsed (w : world) (k : nat) : Q :=
  (perf_counter_reading w (S k) - perf_counter_reading w k)%Q.

(** ** Ways the remote call fails

    The places in the [try] block of [AnuWebQRNG.generate_bits] at which
    an exception [e] can come up. *)
Inductive remote_failure (w : world) (num_bits : Z) (e : exn) : Prop :=
| network_failure :
    (* no reply: connection error or timeout *)
    requests_get w (AnuWebQRNG.the_request num_bits) = Raise e ->
    remote_failure w num_bits e
| bad_status (resp : response) :
    requests_get w (AnuWebQRNG.the_request num_bits) = Ok resp ->
    raise_for_status resp = Raise e ->
    remote_failure w num_bits e
| malformed_body (resp : response) :
    requests_get w (AnuWebQRNG.the_request num_bits) = Ok resp ->
    raise_for_status resp = Ok tt ->
    json resp = Raise e ->
    remote_failure w num_bits e
| missing_data (resp : response) (body : pyobj) :
    requests_get w (AnuWebQRNG.the_request num_bits) = Ok resp ->
    raise_for_status resp = Ok tt ->
    json resp = Ok body ->
    getitem body "data" = Raise e ->
    remote_failure w num_bits e
| malformed_data (resp : response) (body data : pyobj) :
    requests_get w (AnuWebQRNG.the_request num_bits) = Ok resp ->
    raise_for_status resp = Ok tt ->
    json resp = Ok body ->
    getitem body "data" = Ok data ->
    (xs <- iterate data ;; mapM format_obj_08b xs) = Raise e ->
    remote_failure w num_bits e.

(** ** Sample worlds *)

Module Sample.

Definition ticking_clock (k : nat) : Q := (inject_Z (Z.of_nat k) / 1000)%Q.

(** A backend that answers each shot with one bit. *)
Definition one_bit_per_shot (qc : QuantumCircuit) (shots : Z)
  : result (list string) :=
  Ok (map (fun i => if Nat.even i then "0" else "1") (seq 0 (Z.to_nat shots))).

Definition entropy (i : nat) : byte :=
  match Byte.of_N (N.of_nat (i * 37 mod 256)) with
  | Some b => b
  | None => x00
  end.

Definition reply (body : pyobj) : response :=
  {| raise_for_status := Ok tt; json := Ok body |}.

(** The endpoint answers [{"data": [255, 0]}]. *)
Definition answering : world :=
  {| perf_counter_reading := ticking_clock;
     aer_get_memory := one_bit_per_shot;
     os_random_byte := entropy;
     requests_get := fun _ => Ok (reply (PDict [("data", PList [PInt 255; PInt 0])])) |}.

Definition ReadTimeout : exn :=
  mk_exn "ReadTimeout" true
    "HTTPSConnectionPool(host='qrng.anu.edu.au', port=443): Read timed out. (read timeout=10)".

(** The endpoint does not answer in time. *)
Definition timing_out : world :=
  {| perf_counter_reading := ticking_clock;
     aer_get_memory := one_bit_per_shot;
     os_random_byte := entropy;
     requests_get := fun _ => Raise ReadTimeout |}.

(** A clock too coarse to tell two readings apart. *)
Definition coarse_clock : world :=
  {| perf_counter_reading := fun _ => 5%Q;
     aer_get_memory := one_bit_per_shot;
     os_random_byte := entropy;
     requests_get := fun _ => Raise ReadTimeout |}.


(** A backend whose outcomes are not bits. *)
Definition garbled : world :=
  {| perf_counter_reading := ticking_clock;
     aer_get_memory := fun _ _ => Ok ["0"; "1"; "Error"; "0"];
     os_random_byte := entropy;
     requests_get := fun _ => Raise ReadTimeout |}.

Definition no_process : process := {| argv := []; environ := [] |}.

End Sample.


(** ** Reading the results *)

(** The character that shows a bit. *)
Definition bit_char (b : bool) : ascii := if b then "1"%char else "0"%char.

(** [isinstance(x, int)]: the values the format code [b] accepts. *)
Definition is_int (x : pyobj) : bool :=
  match x with
  | PInt _ | PBool _ => true
  | _ => false
  end.

(** A generator counts as successful for the runner when it returns a
    string without "Error". *)
Definition succeeded (target_bits : Z) (gen : generator) : bool :=
  match generate_bits gen target_bits with
  | Ok bits => negb (Str.contains "Error" bits)
  | Raise _ => false
  end.

(** The entries a full pass over [todo] stores: one for each successful
    generator, in the order of [todo], when the first reading of the
    pass is the reading number [first_read]. *)
Fixpoint recorded (w : world) (target_bits : Z) (first_read : nat)
    (todo : list (string * generator)) : Dict.t Q :=
  match todo with
  | [] => []
  | (name, gen) :: todo' =>
      ((if succeeded target_bits gen then [(name, elapsed w first_read)] else [])
         ++ recorded w target_bits (S (S first_read)) todo')%list
  end.


(** ** More sample worlds *)

Module Edge.

Definition BackendError : exn :=
  mk_exn "AerError" true "simulation failed".

(** The simulator fails. *)
Definition broken_backend : world :=
  {| perf_counter_reading := Sample.ticking_clock;
     aer_get_memory := fun _ _ => Raise BackendError;
     os_random_byte := Sample.entropy;
     requests_get := fun _ => Raise Sample.ReadTimeout |}.

Definition replying (data : pyobj) : world :=
  {| perf_counter_reading := Sample.ticking_clock;
     aer_get_memory := Sample.one_bit_per_shot;
     os_random_byte := Sample.entropy;
     requests_get := fun _ => Ok (Sample.reply (PDict [("data", data)])) |}.

Definition KeyboardInterrupt : exn := mk_exn "KeyboardInterrupt" false "".

(** The user interrupts the request. *)
Definition interrupted : world :=
  {| perf_counter_reading := Sample.ticking_clock;
     aer_get_memory := Sample.one_bit_per_shot;
     os_random_byte := Sample.entropy;
     requests_get := fun _ => Raise KeyboardInterrupt |}.

End Edge.

(* ================================================================= *)
(** * Properties *)

(** ** Strings *)

Section StringFacts.

Lemma length_append (a b : string) :
  String.length (a ++ b) = (String.length a + String.length b)%nat.
Proof.
  induction a as [|c a IH]; simpl; [reflexivity | now rewrite IH].
Qed.

Lemma append_empty_r (a : string) : a ++ "" = a.
Proof.
  induction a as [|c a IH]; simpl; [reflexivity | now rewrite IH].
Qed.

Lemma join_cons (x : string) (xs : list string) :
  String.concat "" (x :: xs) = x ++ String.concat "" xs.
Proof.
  destruct xs; simpl; [now rewrite append_empty_r | reflexivity].
Qed.

Lemma length_join (k : nat) (l : list string) :
  Forall (fun s => String.length s = k) l ->
  String.length (String.concat "" l) = (k * List.length l)%nat.
Proof.
  induction 1 as [|x xs Hx _ IH].
  - simpl. lia.
  - rewrite join_cons, length_append, IH, Hx. simpl. lia.
Qed.

Lemma length_take (n : nat) (s : string) :
  String.length (Str.take n s) = Nat.min n (String.length s).
Proof.
  revert s; induction n as [|n IH]; intros [|c s]; simpl; auto.
Qed.

Lemma take_all (n : nat) (s : string) :
  (String.length s <= n)%nat -> Str.take n s = s.
Proof.
  revert s; induction n as [|n IH]; intros [|c s]; simpl; intros Hle;
    try reflexivity; try lia.
  f_equal. apply IH. lia.
Qed.

Lemma forallb_append (p : ascii -> bool) (a b : string) :
  Str.forallb p (a ++ b) = Str.forallb p a && Str.forallb p b.
Proof.
  induction a as [|c a IH]; simpl; [reflexivity |].
  now rewrite IH, andb_assoc.
Qed.

Lemma forallb_join (p : ascii -> bool) (l : list string) :
  Forall (fun s => Str.forallb p s = true) l ->
  Str.forallb p (String.concat "" l) = true.
Proof.
  induction 1 as [|x xs Hx _ IH]; [reflexivity |].
  now rewrite join_cons, forallb_append, Hx, IH.
Qed.

Lemma forallb_take (p : ascii -> bool) (n : nat) (s : string) :
  Str.forallb p s = true -> Str.forallb p (Str.take n s) = true.
Proof.
  revert s; induction n as [|n IH]; intros [|c s]; simpl; auto.
  intros [Hc Hs]%andb_prop. now rewrite Hc, IH.
Qed.

Lemma forallb_weaken (p q : ascii -> bool) (s : string) :
  (forall c, p c = true -> q c = true) ->
  Str.forallb p s = true -> Str.forallb q s = true.
Proof.
  intros Hpq. induction s as [|c s IH]; simpl; [reflexivity |].
  intros [Hc Hs]%andb_prop. now rewrite (Hpq _ Hc), IH.
Qed.

Lemma forallb_slice_to (p : ascii -> bool) (s : string) (n : Z) :
  Str.forallb p s = true -> Str.forallb p (Str.slice_to s n) = true.
Proof.
  intros Hs. unfold Str.slice_to. destruct (n <? 0); now apply forallb_take.
Qed.

(** A string without the letter E does not contain ["Error"]. *)
Lemma no_E_no_Error (s : string) :
  Str.forallb Str.no_E s = true ->
  Str.contains "Error" s = false.
Proof.
  induction s as [|c s IH]; [reflexivity |].
  cbn [Str.contains Str.forallb String.prefix]. unfold Str.no_E at 1.
  intros [Hc Hs]%andb_prop. rewrite (IH Hs), orb_false_r.
  destruct (ascii_dec "E"%char c) as [<- | Hne]; [discriminate | reflexivity].
Qed.

Lemma contains_prefix (needle hay : string) :
  String.prefix needle hay = true -> Str.contains needle hay = true.
Proof.
  destruct hay; simpl; intros ->; reflexivity.
Qed.

Lemma contains_append_l (needle a b : string) :
  Str.contains needle b = true -> Str.contains needle (a ++ b) = true.
Proof.
  intros Hb. induction a as [|c a IH]; simpl; [exact Hb |].
  rewrite IH. apply orb_true_r.
Qed.

Lemma prefix_append (a b : string) : String.prefix a (a ++ b) = true.
Proof.
  induction a as [|c a IH]; [now destruct b |].
  cbn [String.append String.prefix].
  destruct (ascii_dec c c); [exact IH | contradiction].
Qed.

Lemma bit_no_E (c : ascii) :
  Str.is_bit c = true -> Str.no_E c = true.
Proof.
  unfold Str.is_bit.
  intros [H | H]%orb_prop; apply Ascii.eqb_eq in H; subst; reflexivity.
Qed.

Lemma bit_string_no_Error (s : string) :
  Str.bit_string s = true -> Str.contains "Error" s = false.
Proof.
  intros Hs. apply no_E_no_Error.
  revert Hs. apply forallb_weaken, bit_no_E.
Qed.

End StringFacts.

(** ** The binary format of a byte *)

Lemma format_08b_byte (b : byte) :
  String.length (format_08b (int_of_byte b)) = 8%nat /\
  Str.bit_string (format_08b (int_of_byte b)) = true.
Proof.
  destruct b; split; reflexivity.
Qed.

Lemma byte_of_uint8 (x : Z) :
  0 <= x < 256 -> exists b : byte, x = int_of_byte b.
Proof.
  intros Hx.
  destruct (Byte.of_N (Z.to_N x)) as [b|] eqn:Hb.
  - exists b. apply Byte.to_of_N in Hb. unfold int_of_byte. rewrite Hb. lia.
  - apply Byte.of_N_None_iff in Hb. lia.
Qed.

Lemma format_08b_uint8 (x : Z) :
  0 <= x < 256 ->
  String.length (format_08b x) = 8%nat /\ Str.bit_string (format_08b x) = true.
Proof.
  intros [b ->]%byte_of_uint8. apply format_08b_byte.
Qed.

Lemma length_slice_to (s : string) (n : Z) :
  0 <= n <= Z.of_nat (String.length s) ->
  Z.of_nat (String.length (Str.slice_to s n)) = n.
Proof.
  intros Hn. unfold Str.slice_to.
  destruct (n <? 0) eqn:Hneg; [lia |].
  rewrite length_take. lia.
Qed.

(** ** The classical generator *)

(** C1.  For every requested bit count [n >= 1] the classical generator
    returns (it does not raise) a string of exactly [n] characters, each
    '0' or '1'; the string does not contain "Error", so it is never taken
    for the failure sentinel. *)
Theorem classical_generate_bits_ok (w : world) (n : Z) :
  1 <= n ->
  exists s : string,
    ClassicalRNG.generate_bits w n = Ok s /\
    Z.of_nat (String.length s) = n /\
    Str.bit_string s = true /\
    Str.contains "Error" s = false.
Proof.
  intros Hn.
  unfold ClassicalRNG.generate_bits, token_bytes.
  assert (Hbytes : 0 <= n / 8) by (apply Z.div_pos; lia).
  destruct (n / 8 + 1 <? 0) eqn:Hneg; [lia |]. cbn [bind].
  set (pieces := map (fun x => format_08b (int_of_byte x)) _).
  assert (Hlen : Forall (fun s => String.length s = 8%nat) pieces).
  { apply Forall_map, Forall_forall. intros b _. apply format_08b_byte. }
  assert (Hbits : Forall (fun s => Str.forallb Str.is_bit s = true) pieces).
  { apply Forall_map, Forall_forall. intros b _. apply format_08b_byte. }
  assert (Hcount : List.length pieces = Z.to_nat (n / 8 + 1)).
  { unfold pieces. now rewrite !length_map, length_seq. }
  assert (Hbs : Str.bit_string (Str.slice_to (String.concat "" pieces) n) = true).
  { apply forallb_slice_to, forallb_join, Hbits. }
  eexists. split; [reflexivity |]. repeat split.
  - apply length_slice_to. rewrite (length_join 8 _ Hlen), Hcount.
    pose proof (Z.mul_succ_div_gt n 8). lia.
  - exact Hbs.
  - apply bit_string_no_Error, Hbs.
Qed.

Lemma classical_generate_bits_witness :
  exists s : string,
    ClassicalRNG.generate_bits Sample.answering 2000 = Ok s /\
    Z.of_nat (String.length s) = 2000 /\
    Str.bit_string s = true /\
    Str.contains "Error" s = false.
Proof.
  apply classical_generate_bits_ok. lia.
Defined.

(** ** The remote generator *)

Lemma mapM_ints (data : list Z) :
  mapM format_obj_08b (map PInt data) = Ok (map format_08b data).
Proof.
  induction data as [|x data IH]; [reflexivity |].
  cbn [map mapM format_obj_08b bind]. now rewrite IH.
Qed.

(** C2.  When the endpoint answers with a list of bytes, the remote
    generator has asked for [num_bits // 8 + 1] values of type uint8,
    each byte contributes its eight binary digits, the pieces are joined
    in order and the first [num_bits] characters are returned.  A reply
    that holds at least [num_bits] bits -- such as one with the number of
    values asked for -- gives exactly [num_bits] characters.  For the
    bytes 255, 0 and 9 bits the result is "111111110". *)
Theorem anu_generate_bits_success
    (w : world) (num_bits : Z) (resp : response) (body : pyobj) (data : list Z) :
  0 <= num_bits ->
  requests_get w (AnuWebQRNG.the_request num_bits) = Ok resp ->
  raise_for_status resp = Ok tt ->
  json resp = Ok body ->
  getitem body "data" = Ok (PList (map PInt data)) ->
  Forall (fun x => 0 <= x < 256) data ->
  req_params (AnuWebQRNG.the_request num_bits)
    = [("length", PInt (num_bits / 8 + 1)); ("type", PStr "uint8")] /\
  Forall (fun x => String.length (format_08b x) = 8%nat) data /\
  AnuWebQRNG.generate_bits w num_bits
    = Ok (Str.take (Z.to_nat num_bits) (String.concat "" (map format_08b data))) /\
  (num_bits <= 8 * Z.of_nat (List.length data) ->
   exists s, AnuWebQRNG.generate_bits w num_bits = Ok s /\
             Z.of_nat (String.length s) = num_bits /\
             Str.bit_string s = true) /\
  (num_bits = 9 -> data = [255; 0] ->
   AnuWebQRNG.generate_bits w num_bits = Ok "111111110").
Proof.
  intros Hn Hget Hstatus Hjson Hdata Hbytes.
  assert (Hlen : Forall (fun x => String.length (format_08b x) = 8%nat) data).
  { revert Hbytes. apply Forall_impl. intros x Hx. now apply format_08b_uint8. }
  assert (Hrun : AnuWebQRNG.generate_bits w num_bits
                 = Ok (Str.take (Z.to_nat num_bits)
                         (String.concat "" (map format_08b data)))).
  { unfold AnuWebQRNG.generate_bits, AnuWebQRNG.try_body.
    rewrite Hget. cbn [bind]. rewrite Hstatus. cbn [bind].
    rewrite Hjson. cbn [bind]. rewrite Hdata. cbn [bind iterate].
    rewrite mapM_ints. cbn [bind try_except_Exception].
    unfold Str.slice_to. destruct (num_bits <? 0) eqn:Hneg; [lia | reflexivity]. }
  split; [reflexivity |]. split; [exact Hlen |]. split; [exact Hrun |]. split.
  - intros Henough. eexists. split; [exact Hrun |]. split.
    + rewrite length_take, (length_join 8), length_map.
      * lia.
      * apply Forall_map. exact Hlen.
    + apply forallb_take, forallb_join, Forall_map.
      revert Hbytes. apply Forall_impl. intros x Hx. now apply format_08b_uint8.
  - intros -> ->. exact Hrun.
Qed.

Lemma anu_generate_bits_success_witness :
  AnuWebQRNG.generate_bits Sample.answering 9 = Ok "111111110".
Proof.
  refine (proj2 (proj2 (proj2 (proj2
    (anu_generate_bits_success Sample.answering 9
       (Sample.reply (PDict [("data", PList [PInt 255; PInt 0])]))
       (PDict [("data", PList [PInt 255; PInt 0])]) [255; 0]
       _ eq_refl eq_refl eq_refl eq_refl _)))) eq_refl eq_refl).
  - lia.
  - repeat constructor; lia.
Defined.

Lemma remote_failure_iff (w : world) (num_bits : Z) (e : exn) :
  AnuWebQRNG.try_body w num_bits = Raise e <-> remote_failure w num_bits e.
Proof.
  unfold AnuWebQRNG.try_body. split.
  - destruct (requests_get w _) as [resp|e0] eqn:Hget; cbn [bind];
      [| intros [= ->]; now apply network_failure].
    destruct (raise_for_status resp) as [[]|e0] eqn:Hstatus; cbn [bind];
      [| intros [= ->]; now apply bad_status with resp].
    destruct (json resp) as [body|e0] eqn:Hjson; cbn [bind];
      [| intros [= ->]; now apply malformed_body with resp].
    destruct (getitem body "data") as [data|e0] eqn:Hdata; cbn [bind];
      [| intros [= ->]; now apply missing_data with resp body].
    intros Hrest. apply malformed_data with resp body data; auto.
    destruct (iterate data) as [xs|e0]; cbn [bind] in *; [| congruence].
    destruct (mapM format_obj_08b xs); cbn [bind] in *; [discriminate | congruence].
  - intros [Hget | resp Hget Hs | resp Hget Hs Hj | resp body Hget Hs Hj Hd
            | resp body data Hget Hs Hj Hd Hrest];
      rewrite Hget; cbn [bind]; try reflexivity;
      rewrite Hs; cbn [bind]; try reflexivity;
      rewrite Hj; cbn [bind]; try reflexivity;
      rewrite Hd; cbn [bind]; try reflexivity.
    destruct (iterate data) as [xs|e0]; cbn [bind] in *; [| congruence].
    destruct (mapM format_obj_08b xs); cbn [bind] in *; [discriminate | congruence].
Qed.

(** C3.  Whatever goes wrong inside the [try] block -- no reply, a status
    that [raise_for_status] rejects, a body that is not JSON, a body
    without "data", data that cannot be formatted -- the remote generator
    returns a string (it does not raise), and the string is "Error: "
    followed by the text of the exception; its first seven characters are
    "Error: ". *)
Theorem anu_generate_bits_failure (w : world) (num_bits : Z) (e : exn) :
  remote_failure w num_bits e ->
  exn_is_Exception e = true ->
  exists s : string,
    AnuWebQRNG.generate_bits w num_bits = Ok s /\
    s = "Error: " ++ exn_str e /\
    Str.take 7 s = "Error: " /\
    String.prefix "Error: " s = true.
Proof.
  intros Hfail%remote_failure_iff Hcatch.
  exists ("Error: " ++ exn_str e). split; [| repeat split].
  - unfold AnuWebQRNG.generate_bits. rewrite Hfail.
    cbn [try_except_Exception]. now rewrite Hcatch.
  - apply prefix_append.
Qed.

Lemma anu_generate_bits_failure_witness :
  exists s : string,
    AnuWebQRNG.generate_bits Sample.timing_out 2000 = Ok s /\
    s = "Error: " ++ exn_str Sample.ReadTimeout /\
    Str.take 7 s = "Error: " /\
    String.prefix "Error: " s = true.
Proof.
  apply anu_generate_bits_failure.
  - apply network_failure. reflexivity.
  - reflexivity.
Defined.

(** ** Dictionaries *)

Section DictFacts.
Context {V : Type}.
Implicit Types (d : Dict.t V) (k : string) (v : V).

Lemma get_set_same d k v : Dict.get (Dict.set d k v) k = Some v.
Proof.
  induction d as [|[k' v'] d IH]; cbn [Dict.set Dict.get].
  - now rewrite String.eqb_refl.
  - destruct (String.eqb k' k) eqn:E; cbn [Dict.get]; rewrite E; auto.
Qed.

Lemma get_set_other d k k' v :
  k <> k' -> Dict.get (Dict.set d k v) k' = Dict.get d k'.
Proof.
  intros Hne. induction d as [|[k0 v0] d IH]; cbn [Dict.set Dict.get].
  - apply String.eqb_neq in Hne. now rewrite Hne.
  - destruct (String.eqb k0 k) eqn:E; cbn [Dict.get].
    + apply String.eqb_eq in E. subst k0.
      apply String.eqb_neq in Hne. now rewrite Hne.
    + now rewrite IH.
Qed.

Lemma in_keys_set d k k' v :
  In k' (Dict.keys (Dict.set d k v)) <-> k' = k \/ In k' (Dict.keys d).
Proof.
  unfold Dict.keys.
  induction d as [|[k0 v0] d IH]; cbn [Dict.set map fst In].
  - intuition auto.
  - destruct (String.eqb k0 k) eqn:E; cbn [map fst In].
    + apply String.eqb_eq in E. subst k0. intuition auto.
    + rewrite IH. intuition auto.
Qed.

Lemma NoDup_keys_set d k v :
  NoDup (Dict.keys d) -> NoDup (Dict.keys (Dict.set d k v)).
Proof.
  unfold Dict.keys.
  induction d as [|[k0 v0] d IH]; cbn [Dict.set map fst]; intros Hnd.
  - repeat constructor. intros [].
  - inversion Hnd as [|? ? Hnotin Hnd']; subst.
    destruct (String.eqb k0 k) eqn:E; cbn [map fst].
    + now constructor.
    + constructor; [| now apply IH].
      intros [-> | Hin]%(in_keys_set d k k0 v).
      * now rewrite String.eqb_refl in E.
      * now apply Hnotin.
Qed.

Lemma count_absent d k : ~ In k (Dict.keys d) -> Dict.count d k = 0%nat.
Proof.
  unfold Dict.count, Dict.keys.
  induction d as [|[k0 v0] d IH]; cbn [filter map fst In List.length];
    [reflexivity |].
  intros Hnotin. destruct (String.eqb k0 k) eqn:E.
  - apply String.eqb_eq in E. tauto.
  - apply IH. tauto.
Qed.

Lemma get_in_keys d k v : Dict.get d k = Some v -> In k (Dict.keys d).
Proof.
  unfold Dict.keys.
  induction d as [|[k0 v0] d IH]; cbn [Dict.get map fst In]; [discriminate |].
  destruct (String.eqb k0 k) eqn:E.
  - apply String.eqb_eq in E. auto.
  - auto.
Qed.

(** In a dictionary a key that has a value has one entry. *)
Lemma count_of_get d k v :
  NoDup (Dict.keys d) -> Dict.get d k = Some v -> Dict.count d k = 1%nat.
Proof.
  unfold Dict.keys.
  induction d as [|[k0 v0] d IH]; cbn [Dict.get map fst]; [discriminate |].
  intros Hnd Hget. inversion Hnd as [|? ? Hnotin Hnd']; subst.
  unfold Dict.count. cbn [filter fst].
  destruct (String.eqb k0 k) eqn:E.
  - apply String.eqb_eq in E. subst k0. cbn [List.length]. f_equal.
    now apply count_absent.
  - now apply IH.
Qed.

End DictFacts.

(** ** The loop of the runner *)

Section Loop.
Variable w : world.
Variable target_bits : Z.

(** One turn of the loop. *)
Lemma benchmark_loop_cons name gen todo results st :
  benchmark_loop w target_bits ((name, gen) :: todo) results st =
  let c := clock_reads st in
  match generate_bits gen target_bits with
  | Raise e =>
      (Raise e,
       {| clock_reads := S c; stdout := stdout st; pyplot := pyplot st |})
  | Ok bits =>
      let d := elapsed w c in
      if Str.contains "Error" bits then
        benchmark_loop w target_bits todo results
          {| clock_reads := S (S c);
             stdout := stdout st ++ [failed_row name bits];
             pyplot := pyplot st |}
      else if Qeq_bool d 0 then
        (Raise ZeroDivisionError,
         {| clock_reads := S (S c); stdout := stdout st; pyplot := pyplot st |})
      else
        benchmark_loop w target_bits todo (Dict.set results name d)
          {| clock_reads := S (S c);
             stdout := stdout st
                         ++ [timing_row name d (inject_Z target_bits / d)%Q];
             pyplot := pyplot st |}
  end.
Proof.
  cbn [benchmark_loop]. unfold io_bind, perf_counter, lift, print, truediv, elapsed.
  cbn [clock_reads stdout pyplot].
  destruct (generate_bits gen target_bits) as [bits|e]; [| reflexivity].
  cbn zeta. destruct (Str.contains "Error" bits); [reflexivity |].
  destruct (Qeq_bool _ 0); reflexivity.
Qed.

(** The loop only adds lines to the console and leaves the figure alone. *)
Lemma benchmark_loop_output todo : forall results st,
  exists lines,
    stdout (snd (benchmark_loop w target_bits todo results st))
      = (stdout st ++ lines)%list /\
    pyplot (snd (benchmark_loop w target_bits todo results st)) = pyplot st.
Proof.
  induction todo as [|[name gen] todo IH]; intros results st.
  - exists []. cbn. now rewrite app_nil_r.
  - rewrite benchmark_loop_cons. cbn zeta.
    destruct (generate_bits gen target_bits) as [bits|e].
    + destruct (Str.contains "Error" bits).
      * destruct (IH results
          {| clock_reads := S (S (clock_reads st));
             stdout := stdout st ++ [failed_row name bits];
             pyplot := pyplot st |}) as (lines & -> & ->).
        cbn [stdout pyplot]. rewrite <- app_assoc. eauto.
      * destruct (Qeq_bool (elapsed w (clock_reads st)) 0).
        -- exists []. cbn. now rewrite app_nil_r.
        -- match goal with |- context [benchmark_loop _ _ _ ?r ?s] =>
             destruct (IH r s) as (lines & -> & ->) end.
           cbn [stdout pyplot]. rewrite <- app_assoc. eauto.
    + exists []. cbn. now rewrite app_nil_r.
Qed.

(** A key whose generators all failed keeps the value it had. *)
Lemma benchmark_loop_get_unchanged todo : forall results st r st' k,
  benchmark_loop w target_bits todo results st = (Ok r, st') ->
  (forall gen bits, In (k, gen) todo ->
     generate_bits gen target_bits = Ok bits ->
     Str.contains "Error" bits = true) ->
  Dict.get r k = Dict.get results k.
Proof.
  induction todo as [|[name gen] todo IH]; intros results st r st' k Hrun Hfail.
  - cbn in Hrun. now injection Hrun as -> _.
  - rewrite benchmark_loop_cons in Hrun. cbn zeta in Hrun.
    destruct (generate_bits gen target_bits) as [bits|e] eqn:Hgen;
      [| discriminate].
    destruct (Str.contains "Error" bits) eqn:Herr.
    + eapply IH; [exact Hrun |]. intros g b Hin. apply Hfail. now right.
    + destruct (Qeq_bool (elapsed w (clock_reads st)) 0); [discriminate |].
      rewrite (IH _ _ _ _ k Hrun).
      * apply get_set_other. intros ->.
        specialize (Hfail gen bits (or_introl eq_refl) Hgen). congruence.
      * intros g b Hin. apply Hfail. now right.
Qed.

(** A generator that succeeded has its time under its name. *)
Lemma benchmark_loop_get_success todo : forall results st r st' i name gen bits,
  NoDup (map fst todo) ->
  benchmark_loop w target_bits todo results st = (Ok r, st') ->
  nth_error todo i = Some (name, gen) ->
  generate_bits gen target_bits = Ok bits ->
  Str.contains "Error" bits = false ->
  Dict.get r name = Some (elapsed w (clock_reads st + 2 * i)) /\
  ~ (elapsed w (clock_reads st + 2 * i) == 0)%Q.
Proof.
  induction todo as [|[name0 gen0] todo IH];
    intros results st r st' i name gen bits Hnd Hrun Hnth Hgen Herr.
  - now destruct i.
  - rewrite benchmark_loop_cons in Hrun. cbn zeta in Hrun.
    cbn [map fst] in Hnd. inversion Hnd as [|? ? Hnotin Hnd']; subst.
    destruct i as [|i]; cbn [nth_error] in Hnth.
    + injection Hnth as -> ->. rewrite Hgen, Herr in Hrun.
      replace (clock_reads st + 2 * 0)%nat with (clock_reads st) by lia.
      destruct (Qeq_bool (elapsed w (clock_reads st)) 0) eqn:Hz;
        [discriminate |].
      split; [| now apply Qeq_bool_neq].
      rewrite (benchmark_loop_get_unchanged _ _ _ _ _ name Hrun).
      * apply get_set_same.
      * intros g b Hin. exfalso. apply Hnotin.
        change name with (fst (name, g)). now apply in_map.
    + replace (clock_reads st + 2 * S i)%nat
        with (S (S (clock_reads st)) + 2 * i)%nat by lia.
      destruct (generate_bits gen0 target_bits) as [bits0|e]; [| discriminate].
      destruct (Str.contains "Error" bits0).
      * now apply (IH _ _ _ _ _ _ _ _ Hnd' Hrun Hnth Hgen Herr).
      * destruct (Qeq_bool (elapsed w (clock_reads st)) 0); [discriminate |].
        now apply (IH _ _ _ _ _ _ _ _ Hnd' Hrun Hnth Hgen Herr).
Qed.

(** The names under which the loop stores are distinct. *)
Lemma benchmark_loop_NoDup todo : forall results st r st',
  benchmark_loop w target_bits todo results st = (Ok r, st') ->
  NoDup (Dict.keys results) -> NoDup (Dict.keys r).
Proof.
  induction todo as [|[name gen] todo IH]; intros results st r st' Hrun Hnd.
  - cbn in Hrun. now injection Hrun as <- _.
  - rewrite benchmark_loop_cons in Hrun. cbn zeta in Hrun.
    destruct (generate_bits gen target_bits) as [bits|e]; [| discriminate].
    destruct (Str.contains "Error" bits).
    + eapply IH; eauto.
    + destruct (Qeq_bool (elapsed w (clock_reads st)) 0); [discriminate |].
      eapply IH; [exact Hrun |]. now apply NoDup_keys_set.
Qed.

(** A generator that failed has its line on the console. *)
Lemma benchmark_loop_failed_row todo : forall results st r st' name gen bits,
  benchmark_loop w target_bits todo results st = (Ok r, st') ->
  In (name, gen) todo ->
  generate_bits gen target_bits = Ok bits ->
  Str.contains "Error" bits = true ->
  In (failed_row name bits) (stdout st').
Proof.
  induction todo as [|[name0 gen0] todo IH];
    intros results st r st' name gen bits Hrun Hin Hgen Herr; [destruct Hin |].
  rewrite benchmark_loop_cons in Hrun. cbn zeta in Hrun.
  destruct Hin as [[= -> ->] | Hin].
  - rewrite Hgen, Herr in Hrun.
    match type of Hrun with benchmark_loop _ _ _ ?r0 ?s0 = _ =>
      destruct (benchmark_loop_output todo r0 s0) as (lines & Hout & _) end.
    rewrite Hrun in Hout. cbn [snd stdout] in Hout. rewrite Hout.
    apply in_or_app. left. apply in_or_app. right. now left.
  - destruct (generate_bits gen0 target_bits) as [bits0|e]; [| discriminate].
    destruct (Str.contains "Error" bits0).
    + eapply IH; eauto.
    + destruct (Qeq_bool (elapsed w (clock_reads st)) 0); [discriminate |].
      eapply IH; eauto.
Qed.

(** When every generator returns, a success measured at zero seconds
    ends the loop with [ZeroDivisionError]. *)
Lemma benchmark_loop_zero_division todo : forall results st i name gen bits,
  (forall n g, In (n, g) todo -> exists b, generate_bits g target_bits = Ok b) ->
  nth_error todo i = Some (name, gen) ->
  generate_bits gen target_bits = Ok bits ->
  Str.contains "Error" bits = false ->
  (elapsed w (clock_reads st + 2 * i) == 0)%Q ->
  fst (benchmark_loop w target_bits todo results st) = Raise ZeroDivisionError.
Proof.
  induction todo as [|[name0 gen0] todo IH];
    intros results st i name gen bits Hall Hnth Hgen Herr Hzero.
  - now destruct i.
  - rewrite benchmark_loop_cons. cbn zeta.
    destruct i as [|i]; cbn [nth_error] in Hnth.
    + injection Hnth as -> ->. rewrite Hgen, Herr.
      replace (clock_reads st + 2 * 0)%nat with (clock_reads st) in Hzero by lia.
      apply Qeq_bool_iff in Hzero. now rewrite Hzero.
    + replace (clock_reads st + 2 * S i)%nat
        with (S (S (clock_reads st)) + 2 * i)%nat in Hzero by lia.
      destruct (Hall name0 gen0 (or_introl eq_refl)) as [bits0 ->].
      assert (Hall' : forall n g, In (n, g) todo ->
                        exists b, generate_bits g target_bits = Ok b).
      { intros n g Hin. apply (Hall n g). now right. }
      destruct (Str.contains "Error" bits0).
      * now apply (IH _ _ i name gen bits).
      * destruct (Qeq_bool (elapsed w (clock_reads st)) 0); [reflexivity |].
        now apply (IH _ _ i name gen bits).
Qed.

(** When every generator returns and no success is measured at zero
    seconds, the loop returns its dictionary. *)
Lemma benchmark_loop_returns todo : forall results st,
  (forall n g, In (n, g) todo -> exists b, generate_bits g target_bits = Ok b) ->
  (forall i, (i < List.length todo)%nat ->
     ~ (elapsed w (clock_reads st + 2 * i) == 0)%Q) ->
  exists r st', benchmark_loop w target_bits todo results st = (Ok r, st').
Proof.
  induction todo as [|[name0 gen0] todo IH]; intros results st Hall Hpos.
  - now exists results, st.
  - rewrite benchmark_loop_cons. cbn zeta.
    destruct (Hall name0 gen0 (or_introl eq_refl)) as [bits0 ->].
    assert (Hall' : forall n g, In (n, g) todo ->
                      exists b, generate_bits g target_bits = Ok b).
    { intros n g Hin. apply (Hall n g). now right. }
    assert (Hpos' : forall r0 s0 i, (i < List.length todo)%nat ->
              ~ (elapsed w (clock_reads
                   {| clock_reads := S (S (clock_reads st));
                      stdout := s0; pyplot := r0 |} + 2 * i) == 0)%Q).
    { intros r0 s0 i Hi. cbn [clock_reads].
      replace (S (S (clock_reads st)) + 2 * i)%nat
        with (clock_reads st + 2 * S i)%nat by lia.
      apply Hpos. cbn [List.length]. lia. }
    destruct (Str.contains "Error" bits0).
    + apply IH; auto.
    + destruct (Qeq_bool (elapsed w (clock_reads st)) 0) eqn:Hz.
      * exfalso. apply (Hpos 0%nat); [cbn; lia |].
        replace (clock_reads st + 2 * 0)%nat with (clock_reads st) by lia.
        now apply Qeq_bool_iff.
      * apply IH; auto.
Qed.

End Loop.

(** ** What the generators hand to the runner *)

Lemma bin_digits_no_E (p : positive) : forall acc,
  Str.forallb Str.no_E acc = true -> Str.forallb Str.no_E (bin_digits p acc) = true.
Proof.
  induction p as [p IH | p IH |]; intros acc Hacc; cbn [bin_digits].
  - apply IH. cbn [Str.forallb]. now rewrite Hacc.
  - apply IH. cbn [Str.forallb]. now rewrite Hacc.
  - cbn [Str.forallb]. now rewrite Hacc.
Qed.

Lemma repeat_no_E (n : nat) : Str.forallb Str.no_E (Str.repeat "0"%char n) = true.
Proof.
  induction n as [|n IH]; cbn [Str.repeat Str.forallb]; [reflexivity |].
  now rewrite IH.
Qed.

Lemma format_08b_no_E (x : Z) : Str.forallb Str.no_E (format_08b x) = true.
Proof.
  unfold format_08b. rewrite !forallb_append, repeat_no_E.
  assert (Hdigits : Str.forallb Str.no_E (bin_abs x) = true).
  { destruct x; [reflexivity | |]; now apply bin_digits_no_E. }
  rewrite Hdigits. now destruct (x <? 0).
Qed.


Lemma prefix_app_l (a b s : string) :
  String.prefix (a ++ b) s = true -> String.prefix a s = true.
Proof.
  revert s. induction a as [|c a IH]; intros s.
  - now destruct s.
  - destruct s as [|c' s]; cbn [String.append String.prefix]; [discriminate |].
    destruct (ascii_dec c c'); [apply IH | discriminate].
Qed.

Lemma sentinel_contains_Error (bits : string) :
  String.prefix "Error: " bits = true -> Str.contains "Error" bits = true.
Proof.
  intros Hp. apply contains_prefix, (prefix_app_l "Error" ": "), Hp.
Qed.





(** ** [run_benchmark] *)

Lemma run_benchmark_eq (w : world) (arg : option Z) :
  run_benchmark w arg initial_state =
  benchmark_loop w (target_of arg) (generators w) Dict.empty
    {| clock_reads := 0;
       stdout := [header_line (target_of arg); columns_line; rule_line];
       pyplot := [] |}.
Proof. reflexivity. Qed.

Lemma generators_NoDup (w : world) : NoDup (map fst (generators w)).
Proof.
  cbn. repeat constructor; cbn; intuition discriminate.
Qed.

Lemma NoDup_fst_functional {A : Type} (l : list (string * A)) k a b :
  NoDup (map fst l) -> In (k, a) l -> In (k, b) l -> a = b.
Proof.
  induction l as [|[k0 a0] l IH]; cbn [map fst In]; [tauto |].
  intros Hnd Ha Hb. inversion Hnd as [|? ? Hnotin Hnd']; subst.
  destruct Ha as [Ha | Ha], Hb as [Hb | Hb]; auto.
  - congruence.
  - exfalso. apply Hnotin. injection Ha as -> _.
    change k with (fst (k, b)). now apply in_map.
  - exfalso. apply Hnotin. injection Hb as -> _.
    change k with (fst (k, a)). now apply in_map.
Qed.

Lemma get_None_absent {V : Type} (d : Dict.t V) (k : string) :
  Dict.get d k = None -> ~ In k (Dict.keys d).
Proof.
  unfold Dict.keys.
  induction d as [|[k0 v0] d IH]; cbn [Dict.get map fst In]; [tauto |].
  destruct (String.eqb k0 k) eqn:E; [discriminate |].
  apply String.eqb_neq in E. intros Hget [Heq | Hin]; [tauto | now apply IH].
Qed.

Lemma failed_row_FAILED (name bits : string) :
  Str.contains "FAILED" (failed_row name bits) = true.
Proof.
  unfold failed_row. apply contains_append_l.
  change (" | FAILED     | " ++ bits) with (" | " ++ ("FAILED" ++ ("     | " ++ bits))).
  apply contains_append_l, contains_prefix, prefix_append.
Qed.

(** A generator whose string contains "Error" leaves no entry and gets a
    FAILED line. *)
Lemma run_benchmark_failure (w : world) (arg : option Z)
    (r : Dict.t Q) (st : io_state) (name : string) (gen : generator)
    (bits : string) :
  run_benchmark w arg initial_state = (Ok r, st) ->
  In (name, gen) (generators w) ->
  generate_bits gen (target_of arg) = Ok bits ->
  Str.contains "Error" bits = true ->
  Dict.get r name = None /\ In (failed_row name bits) (stdout st).
Proof.
  rewrite run_benchmark_eq. intros Hrun Hin Hgen Herr. split.
  - rewrite (benchmark_loop_get_unchanged _ _ _ _ _ _ _ name Hrun); [reflexivity |].
    intros g b Hin' Hg.
    rewrite (NoDup_fst_functional _ _ _ _ (generators_NoDup w) Hin' Hin) in Hg.
    congruence.
  - now apply (benchmark_loop_failed_row _ _ _ _ _ _ _ _ gen _ Hrun).
Qed.

(** A generator whose string does not contain "Error" has one entry: the
    time between the two readings taken around its call. *)
Lemma run_benchmark_success (w : world) (arg : option Z)
    (r : Dict.t Q) (st : io_state) (i : nat) (name : string) (gen : generator)
    (bits : string) :
  run_benchmark w arg initial_state = (Ok r, st) ->
  nth_error (generators w) i = Some (name, gen) ->
  generate_bits gen (target_of arg) = Ok bits ->
  Str.contains "Error" bits = false ->
  Dict.get r name = Some (elapsed w (2 * i)) /\
  Dict.count r name = 1%nat /\
  ~ (elapsed w (2 * i) == 0)%Q.
Proof.
  rewrite run_benchmark_eq. intros Hrun Hnth Hgen Herr.
  destruct (benchmark_loop_get_success _ _ _ _ _ _ _ _ _ _ _
              (generators_NoDup w) Hrun Hnth Hgen Herr) as [Hget Hnz].
  cbn [clock_reads Nat.add] in Hget, Hnz.
  split; [exact Hget |]. split; [| exact Hnz].
  apply count_of_get with (elapsed w (2 * i)); [| exact Hget].
  apply (benchmark_loop_NoDup _ _ _ _ _ _ _ Hrun). constructor.
Qed.


(** When the simulator answers, the exceptions of the remote call are
    ordinary ones and no reading repeats the one before, the benchmark
    returns its dictionary. *)
Lemma run_benchmark_returns (w : world) (arg : option Z) :
  (exists memory,
     aer_get_memory w QuantumSimulatorRNG.circuit (target_of arg) = Ok memory) ->
  (forall e, AnuWebQRNG.try_body w (target_of arg) = Raise e ->
             exn_is_Exception e = true) ->
  0 <= target_of arg ->
  (forall i, (i < 3)%nat -> ~ (elapsed w (2 * i) == 0)%Q) ->
  exists r st, run_benchmark w arg initial_state = (Ok r, st).
Proof.
  intros [memory Hmem] Hcatch Hpos Hclock. rewrite run_benchmark_eq.
  apply benchmark_loop_returns; [| exact Hclock].
  intros n g [[= <- <-] | [[= <- <-] | [[= <- <-] | []]]]; cbn [generate_bits].
  - unfold QuantumSimulatorRNG.generate_bits. rewrite Hmem. cbn [bind]. eauto.
  - unfold ClassicalRNG.generate_bits, token_bytes.
    assert (0 <= target_of arg / 8) by (apply Z.div_pos; lia).
    destruct (target_of arg / 8 + 1 <? 0) eqn:Hneg; [lia |]. cbn [bind]. eauto.
  - unfold AnuWebQRNG.generate_bits.
    destruct (AnuWebQRNG.try_body w (target_of arg)) as [s|e] eqn:Hbody;
      cbn [try_except_Exception]; [eauto |].
    rewrite (Hcatch e eq_refl). eauto.
Qed.


(** C4.  A generator whose string starts with "Error: " has no entry in
    the dictionary [run_benchmark] returns -- neither a value nor a key --
    and the console shows its line, which contains "FAILED". *)
Theorem run_benchmark_excludes_failures (w : world) (arg : option Z)
    (r : Dict.t Q) (st : io_state) (name : string) (gen : generator)
    (bits : string) :
  run_benchmark w arg initial_state = (Ok r, st) ->
  In (name, gen) (generators w) ->
  generate_bits gen (target_of arg) = Ok bits ->
  String.prefix "Error: " bits = true ->
  Dict.get r name = None /\
  ~ In name (Dict.keys r) /\
  In (failed_row name bits) (stdout st) /\
  Str.contains "FAILED" (failed_row name bits) = true.
Proof.
  intros Hrun Hin Hgen Hsentinel.
  destruct (run_benchmark_failure w arg r st name gen bits Hrun Hin Hgen
              (sentinel_contains_Error _ Hsentinel)) as [Hget Hline].
  repeat split; auto using get_None_absent, failed_row_FAILED.
Qed.

Lemma run_benchmark_excludes_failures_witness :
  exists r st bits,
    run_benchmark Sample.timing_out (Some 16) initial_state = (Ok r, st) /\
    AnuWebQRNG.generate_bits Sample.timing_out 16 = Ok bits /\
    Dict.get r "Remote ANU API" = None /\
    ~ In "Remote ANU API" (Dict.keys r) /\
    In (failed_row "Remote ANU API" bits) (stdout st) /\
    Str.contains "FAILED" (failed_row "Remote ANU API" bits) = true.
Proof.
  do 3 eexists. split; [vm_compute; reflexivity |]. split; [reflexivity |].
  eapply (run_benchmark_excludes_failures Sample.timing_out (Some 16)).
  - vm_compute. reflexivity.
  - right. right. left. reflexivity.
  - reflexivity.
  - reflexivity.
Defined.



(** C6.  Nothing stands between a success measured at zero seconds and
    the division [target_bits / duration]: when every generator returns
    and the two readings around a successful call are equal, the division
    raises and [run_benchmark] ends with [ZeroDivisionError]. *)
Theorem speed_division_unguarded (w : world) (arg : option Z)
    (i : nat) (name : string) (gen : generator) (bits : string) :
  (forall n g, In (n, g) (generators w) ->
     exists b, generate_bits g (target_of arg) = Ok b) ->
  nth_error (generators w) i = Some (name, gen) ->
  generate_bits gen (target_of arg) = Ok bits ->
  Str.contains "Error" bits = false ->
  (perf_counter_reading w (2 * i + 1) - perf_counter_reading w (2 * i) == 0)%Q ->
  truediv (target_of arg)
    (perf_counter_reading w (2 * i + 1) - perf_counter_reading w (2 * i))
    = Raise ZeroDivisionError /\
  fst (run_benchmark w arg initial_state) = Raise ZeroDivisionError.
Proof.
  intros Hall Hnth Hgen Herr Hzero. split.
  - unfold truediv. apply Qeq_bool_iff in Hzero. now rewrite Hzero.
  - rewrite run_benchmark_eq.
    apply (benchmark_loop_zero_division _ _ _ _ _ i name gen bits); auto.
    cbn [clock_reads Nat.add]. unfold elapsed.
    now replace (S (2 * i)) with (2 * i + 1)%nat by lia.
Qed.

Lemma speed_division_unguarded_witness :
  monotonic_clock Sample.coarse_clock /\
  ClassicalRNG.generate_bits Sample.coarse_clock 16 = Ok "0000000000100101" /\
  truediv 16 (5 - 5) = Raise ZeroDivisionError /\
  fst (run_benchmark Sample.coarse_clock (Some 16) initial_state)
    = Raise ZeroDivisionError.
Proof.
  split; [intros i j _; cbn; apply Qle_refl |]. split; [reflexivity |].
  apply (speed_division_unguarded Sample.coarse_clock (Some 16) 1%nat
           "Classical OS"
           {| generate_bits := ClassicalRNG.generate_bits Sample.coarse_clock |}
           "0000000000100101").
  - intros n g [[= <- <-] | [[= <- <-] | [[= <- <-] | []]]];
      eexists; vm_compute; reflexivity.
  - reflexivity.
  - reflexivity.
  - reflexivity.
  - reflexivity.
Defined.

(** ** The simulator *)




(** ** Failure detection *)

(** C9.  The runner looks for "Error" anywhere in the string it gets: a
    string that contains it is reported and left out of the dictionary,
    wherever "Error" stands and whether or not the string starts with
    "Error: "; a string that does not contain it is recorded. *)
Theorem failure_detection_is_substring (w : world) (arg : option Z)
    (r : Dict.t Q) (st : io_state) (i : nat) (name : string) (gen : generator)
    (bits : string) :
  run_benchmark w arg initial_state = (Ok r, st) ->
  nth_error (generators w) i = Some (name, gen) ->
  generate_bits gen (target_of arg) = Ok bits ->
  (Str.contains "Error" bits = true ->
   Dict.get r name = None /\
   Dict.count r name = 0%nat /\
   In (failed_row name bits) (stdout st)) /\
  (Str.contains "Error" bits = false ->
   Dict.get r name = Some (elapsed w (2 * i))).
Proof.
  intros Hrun Hnth Hgen. split; intros Herr.
  - destruct (run_benchmark_failure w arg r st name gen bits Hrun
                (nth_error_In _ _ Hnth) Hgen Herr) as [Hget Hline].
    repeat split; auto. now apply count_absent, get_None_absent.
  - now apply (run_benchmark_success w arg r st i name gen bits Hrun Hnth Hgen).
Qed.

Lemma failure_detection_is_substring_witness :
  exists r st,
    run_benchmark Sample.garbled (Some 16) initial_state = (Ok r, st) /\
    QuantumSimulatorRNG.generate_bits Sample.garbled 16 = Ok "01Error0" /\
    String.prefix "Error: " "01Error0" = false /\
    Dict.get r "Local Qiskit Sim" = None /\
    Dict.count r "Local Qiskit Sim" = 0%nat /\
    In (failed_row "Local Qiskit Sim" "01Error0") (stdout st).
Proof.
  do 2 eexists. split; [vm_compute; reflexivity |].
  split; [reflexivity |]. split; [reflexivity |].
  refine (proj1 (failure_detection_is_substring Sample.garbled (Some 16) _ _
                   0%nat _ _ "01Error0" _ eq_refl eq_refl) eq_refl).
  vm_compute. reflexivity.
Defined.

(** ** The default and the script *)

Lemma first_line_of_run (w : world) (arg : option Z) :
  exists lines,
    stdout (snd (run_benchmark w arg initial_state))
      = (header_line (target_of arg) :: lines)%list /\
    pyplot (snd (run_benchmark w arg initial_state)) = [].
Proof.
  rewrite run_benchmark_eq.
  match goal with |- context [benchmark_loop _ _ ?g ?r ?s] =>
    destruct (benchmark_loop_output w (target_of arg) g r s) as (lines & -> & ->)
  end.
  cbn [stdout pyplot app]. eauto.
Qed.

Lemma for_each_plt {A : Type} (f : A -> plot_call) (l : list A) : forall st,
  for_each (fun a => plt (f a)) l st =
  (Ok tt, {| clock_reads := clock_reads st;
             stdout := stdout st;
             pyplot := pyplot st ++ map f l |}).
Proof.
  induction l as [|a l IH]; intros st; cbn [for_each map].
  - unfold ret. rewrite app_nil_r. now destruct st.
  - unfold io_bind, plt at 1. rewrite IH. cbn [clock_reads stdout pyplot].
    now rewrite <- app_assoc.
Qed.

(** What [plot_results] does to the figure. *)
Lemma plot_results_eq (results : Dict.t Q) (st : io_state) :
  plot_results results st =
  (Ok tt,
   {| clock_reads := clock_reads st;
      stdout := stdout st;
      pyplot :=
        pyplot st
          ++ [plt_figure (10, 6);
              plt_bar (Dict.keys results) (Dict.values results)
                      ["#6929c4"; "#009d9a"; "#1192e8"];
              plt_ylabel "Time to Generate (Seconds)";
              plt_title "QRNG Simulation Time Comparison";
              plt_grid "y" "--" (7 # 10)]
          ++ map annotation (bar_container (Dict.values results))
          ++ [plt_show] |}).
Proof.
  unfold plot_results, io_bind. unfold plt at 1 2 3 4 5.
  rewrite for_each_plt. unfold plt. cbn [clock_reads stdout pyplot].
  repeat rewrite <- app_assoc. reflexivity.
Qed.

(** C10.  A call of [run_benchmark] that gives no argument works with
    1024 bits, the script's own call with 2000: the two print different
    first lines. *)
Theorem run_benchmark_default_is_1024 (w : world) :
  target_of None = 1024 /\
  run_benchmark w None = run_benchmark w (Some 1024) /\
  main w = (data <~ run_benchmark w (Some 2000) ;; plot_results data) /\
  target_of None <> 2000 /\
  hd_error (stdout (snd (run_benchmark w None initial_state)))
    = Some (header_line 1024) /\
  hd_error (stdout (snd (main w initial_state))) = Some (header_line 2000) /\
  header_line 1024 <> header_line 2000.
Proof.
  split; [reflexivity |]. split; [reflexivity |]. split; [reflexivity |].
  split; [discriminate |]. split; [| split; [| discriminate]].
  - destruct (first_line_of_run w None) as (lines & -> & _). reflexivity.
  - unfold main, io_bind.
    destruct (first_line_of_run w (Some 2000)) as (lines & Hout & _).
    destruct (run_benchmark w (Some 2000) initial_state) as [[data|e] st].
    + rewrite plot_results_eq. cbn [snd stdout] in *. now rewrite Hout.
    + cbn [snd] in *. now rewrite Hout.
Qed.

(** C8.  Run as a script, the module calls [run_benchmark] with 2000 and
    then [plot_results] with the dictionary it got: the console starts
    with the heading for 2000 bits, and when the benchmark returns, the
    figure is the chart of its dictionary, shown last.  The command line
    and the environment play no part. *)
Theorem script_benchmarks_2000_then_plots (p : process) (w : world) :
  run_script p w
    = (data <~ run_benchmark w (Some 2000) ;; plot_results data) initial_state /\
  hd_error (stdout (snd (run_script p w))) = Some (header_line 2000) /\
  (forall data st,
     run_benchmark w (Some 2000) initial_state = (Ok data, st) ->
     run_script p w =
     (Ok tt,
      {| clock_reads := clock_reads st;
         stdout := stdout st;
         pyplot :=
           [plt_figure (10, 6);
            plt_bar (Dict.keys data) (Dict.values data)
                    ["#6929c4"; "#009d9a"; "#1192e8"];
            plt_ylabel "Time to Generate (Seconds)";
            plt_title "QRNG Simulation Time Comparison";
            plt_grid "y" "--" (7 # 10)]
           ++ map annotation (bar_container (Dict.values data))
           ++ [plt_show] |})) /\
  (forall e st,
     run_benchmark w (Some 2000) initial_state = (Raise e, st) ->
     run_script p w = (Raise e, st)) /\
  (forall p' : process, run_script p' w = run_script p w).
Proof.
  split; [reflexivity |].
  assert (Hrun : run_script p w = main w initial_state) by reflexivity.
  split; [| split; [| split; [| reflexivity]]].
  - rewrite Hrun. unfold main, io_bind.
    destruct (first_line_of_run w (Some 2000)) as (lines & Hout & _).
    destruct (run_benchmark w (Some 2000) initial_state) as [[data|e] st].
    + rewrite plot_results_eq. cbn [snd stdout] in *. now rewrite Hout.
    + cbn [snd] in *. now rewrite Hout.
  - intros data st Hbench. rewrite Hrun. unfold main, io_bind. rewrite Hbench.
    rewrite plot_results_eq.
    destruct (first_line_of_run w (Some 2000)) as (lines & _ & Hfig).
    rewrite Hbench in Hfig. cbn [snd] in Hfig. now rewrite Hfig.
  - intros e st Hbench. rewrite Hrun. unfold main, io_bind. now rewrite Hbench.
Qed.

Lemma script_benchmarks_2000_then_plots_witness :
  exists st,
    run_script Sample.no_process Sample.timing_out = (Ok tt, st) /\
    hd_error (stdout st) = Some (header_line 2000) /\
    pyplot st =
      [plt_figure (10, 6);
       plt_bar ["Local Qiskit Sim"; "Classical OS"]
               [Sample.ticking_clock 1 - Sample.ticking_clock 0;
                Sample.ticking_clock 3 - Sample.ticking_clock 2]%Q
               ["#6929c4"; "#009d9a"; "#1192e8"];
       plt_ylabel "Time to Generate (Seconds)";
       plt_title "QRNG Simulation Time Comparison";
       plt_grid "y" "--" (7 # 10);
       plt_text (0 - (4 # 10) + (8 # 10) / 2)%Q
                (Sample.ticking_clock 1 - Sample.ticking_clock 0)%Q
                "0.0010s" "bottom" "center";
       plt_text (1 - (4 # 10) + (8 # 10) / 2)%Q
                (Sample.ticking_clock 3 - Sample.ticking_clock 2)%Q
                "0.0010s" "bottom" "center";
       plt_show].
Proof.
  destruct (script_benchmarks_2000_then_plots Sample.no_process Sample.timing_out)
    as (_ & Hhead & Hplot & _).
  eexists. split; [| split].
  - apply Hplot. vm_compute. reflexivity.
  - cbn [stdout]. vm_compute. reflexivity.
  - vm_compute. reflexivity.
Defined.


(* ================================================================= *)
(** * Further properties *)

(** ** Which bit goes where *)

Lemma get_take (n i : nat) (s : string) :
  (i < n)%nat -> String.get i (Str.take n s) = String.get i s.
Proof.
  revert i s. induction n as [|n IH]; intros i [|c s] Hi; try lia;
    cbn [Str.take String.get]; [reflexivity |].
  destruct i as [|i]; [reflexivity |]. apply IH. lia.
Qed.

(** In a join of pieces of eight characters, the character number
    [8 q + r] is the character number [r] of the piece number [q]. *)
Lemma get_join8 (pieces : list string) :
  Forall (fun s => String.length s = 8%nat) pieces ->
  forall q r piece,
    nth_error pieces q = Some piece -> (r < 8)%nat ->
    String.get (8 * q + r) (String.concat "" pieces) = String.get r piece.
Proof.
  induction 1 as [|p pieces Hp _ IH]; intros q r piece Hq Hr.
  - now destruct q.
  - rewrite join_cons. destruct q as [|q]; cbn [nth_error] in Hq.
    + injection Hq as ->. rewrite Nat.mul_0_r, Nat.add_0_l.
      symmetry. apply append_correct1. lia.
    + replace (8 * S q + r)%nat with ((8 * q + r) + String.length p)%nat by lia.
      rewrite <- append_correct2. now apply IH.
Qed.

Lemma format_08b_byte_bit (b : byte) (j : nat) :
  (j < 8)%nat ->
  String.get j (format_08b (int_of_byte b))
    = Some (bit_char (Z.testbit (int_of_byte b) (7 - Z.of_nat j))).
Proof.
  intros Hj.
  do 8 (destruct j as [|j]; [destruct b; reflexivity |]). lia.
Qed.

(** The bits of a sequence of bytes, most significant bit of each byte
    first, are the characters of the joined pieces. *)
Lemma get_joined_bytes (xs : list Z) (n i : Z) :
  Forall (fun x => 0 <= x < 256) xs ->
  0 <= i < n ->
  i < 8 * Z.of_nat (List.length xs) ->
  String.get (Z.to_nat i)
    (Str.take (Z.to_nat n) (String.concat "" (map format_08b xs)))
  = Some (bit_char (Z.testbit (nth (Z.to_nat (i / 8)) xs 0) (7 - i mod 8))).
Proof.
  intros Hbytes Hi Hlen.
  rewrite get_take by lia.
  pose proof (Z.div_mod i 8 ltac:(lia)) as Hdm.
  pose proof (Z.mod_pos_bound i 8 ltac:(lia)) as Hr.
  assert (Hq : (Z.to_nat (i / 8) < List.length xs)%nat) by lia.
  replace (Z.to_nat i) with (8 * Z.to_nat (i / 8) + Z.to_nat (i mod 8))%nat by lia.
  assert (Hpieces : Forall (fun s => String.length s = 8%nat) (map format_08b xs)).
  { apply Forall_map. revert Hbytes. apply Forall_impl.
    intros x Hx. now apply format_08b_uint8. }
  rewrite (get_join8 _ Hpieces (Z.to_nat (i / 8)) (Z.to_nat (i mod 8))
             (format_08b (nth (Z.to_nat (i / 8)) xs 0))).
  - assert (Hx : 0 <= nth (Z.to_nat (i / 8)) xs 0 < 256).
    { rewrite Forall_forall in Hbytes. apply Hbytes, nth_In, Hq. }
    destruct (byte_of_uint8 _ Hx) as [b ->].
    rewrite format_08b_byte_bit by lia. do 3 f_equal. lia.
  - rewrite nth_error_map, (nth_error_nth' xs 0 Hq). reflexivity.
  - lia.
Qed.

Lemma int_of_byte_range (b : byte) : 0 <= int_of_byte b < 256.
Proof.
  unfold int_of_byte. pose proof (Byte.to_N_bounded b). lia.
Qed.

(** X1.  The classical generator hands out the operating system's bits
    unchanged and in order: for [0 <= i < n] the character number [i] of
    [generate_bits(n)] shows the bit [7 - i mod 8] of the random byte
    number [i // 8] (the most significant bit of a byte comes first). *)
Theorem classical_bits_from_entropy (w : world) (n i : Z) :
  0 <= i < n ->
  exists s : string,
    ClassicalRNG.generate_bits w n = Ok s /\
    String.get (Z.to_nat i) s
    = Some (bit_char
              (Z.testbit (int_of_byte (os_random_byte w (Z.to_nat (i / 8))))
                         (7 - i mod 8))).
Proof.
  intros Hi.
  unfold ClassicalRNG.generate_bits, token_bytes.
  assert (Hdiv : 0 <= n / 8) by (apply Z.div_pos; lia).
  destruct (n / 8 + 1 <? 0) eqn:Hneg; [lia |]. cbn [bind].
  eexists. split; [reflexivity |].
  unfold Str.slice_to. destruct (n <? 0) eqn:Hn; [lia |].
  rewrite <- (map_map int_of_byte format_08b).
  set (xs := map int_of_byte _).
  assert (Hlen : List.length xs = Z.to_nat (n / 8 + 1)).
  { unfold xs. now rewrite !length_map, length_seq. }
  pose proof (Z.mul_succ_div_gt n 8 ltac:(lia)) as Hgt.
  assert (Hq : (Z.to_nat (i / 8) < Z.to_nat (n / 8 + 1))%nat).
  { assert (i / 8 <= n / 8) by (apply Z.div_le_mono; lia).
    assert (0 <= i / 8) by (apply Z.div_pos; lia). lia. }
  rewrite get_joined_bytes.
  - do 3 f_equal. unfold xs. rewrite map_map.
    rewrite (nth_indep _ 0 (int_of_byte (os_random_byte w 0)))
      by (rewrite length_map, length_seq; exact Hq).
    rewrite (map_nth (fun i0 => int_of_byte (os_random_byte w i0))).
    now rewrite seq_nth.
  - unfold xs. apply Forall_map, Forall_forall. intros b _.
    apply int_of_byte_range.
  - exact Hi.
  - rewrite Hlen. lia.
Qed.

Lemma classical_bits_from_entropy_witness :
  exists s : string,
    ClassicalRNG.generate_bits Sample.answering 16 = Ok s /\
    String.get 10 s = Some "1"%char.
Proof.
  destruct (classical_bits_from_entropy Sample.answering 16 10 ltac:(lia))
    as (s & Hrun & Hbit).
  exists s. split; [exact Hrun | exact Hbit].
Defined.



(** ** The remote generator, beyond the reply it asks for *)

Section Reply.
Variables (w : world) (num_bits : Z) (resp : response) (body data : pyobj).
Hypothesis Hget : requests_get w (AnuWebQRNG.the_request num_bits) = Ok resp.
Hypothesis Hstatus : raise_for_status resp = Ok tt.
Hypothesis Hjson : json resp = Ok body.
Hypothesis Hdata : getitem body "data" = Ok data.

(** With a reply that carries a "data" field, what is left of the [try]
    block is the loop over the data. *)
Lemma try_body_reply :
  AnuWebQRNG.try_body w num_bits =
  (xs <- iterate data ;;
   pieces <- mapM format_obj_08b xs ;;
   Ok (Str.slice_to (String.concat "" pieces) num_bits)).
Proof.
  unfold AnuWebQRNG.try_body.
  rewrite Hget. cbn [bind]. rewrite Hstatus. cbn [bind].
  rewrite Hjson. cbn [bind]. rewrite Hdata. reflexivity.
Qed.

Lemma generate_bits_ints (xs : list Z) :
  data = PList (map PInt xs) ->
  AnuWebQRNG.generate_bits w num_bits
    = Ok (Str.slice_to (String.concat "" (map format_08b xs)) num_bits).
Proof.
  intros Hints. unfold AnuWebQRNG.generate_bits. rewrite try_body_reply, Hints.
  cbn [iterate bind]. rewrite mapM_ints. reflexivity.
Qed.

End Reply.

(** X3.  The remote generator does not check how many values came back:
    with a reply of bytes the result has [min(num_bits, 8 * len(data))]
    characters, so a reply with too few values gives a string shorter
    than asked for, made of bits, which the runner does not take for a
    failure. *)
Theorem anu_short_reply
    (w : world) (num_bits : Z) (resp : response) (body : pyobj) (data : list Z) :
  0 <= num_bits ->
  requests_get w (AnuWebQRNG.the_request num_bits) = Ok resp ->
  raise_for_status resp = Ok tt ->
  json resp = Ok body ->
  getitem body "data" = Ok (PList (map PInt data)) ->
  Forall (fun x => 0 <= x < 256) data ->
  exists s : string,
    AnuWebQRNG.generate_bits w num_bits = Ok s /\
    Z.of_nat (String.length s) = Z.min num_bits (8 * Z.of_nat (List.length data)) /\
    Str.bit_string s = true /\
    Str.contains "Error" s = false.
Proof.
  intros Hn Hget Hstatus Hjson Hdata Hbytes.
  assert (Hpieces : Forall (fun s => String.length s = 8%nat /\
                                     Str.bit_string s = true)
                           (map format_08b data)).
  { apply Forall_map. revert Hbytes. apply Forall_impl.
    intros x Hx. now apply format_08b_uint8. }
  assert (Hbits : Str.bit_string
                    (Str.slice_to (String.concat "" (map format_08b data)) num_bits)
                  = true).
  { apply forallb_slice_to, forallb_join.
    revert Hpieces. apply Forall_impl. tauto. }
  eexists. split; [| split; [| split; [exact Hbits |]]].
  - apply (generate_bits_ints w num_bits resp body _ Hget Hstatus Hjson Hdata).
    reflexivity.
  - unfold Str.slice_to. destruct (num_bits <? 0) eqn:Hneg; [lia |].
    rewrite length_take, (length_join 8), length_map.
    + lia.
    + revert Hpieces. apply Forall_impl. tauto.
  - apply bit_string_no_Error, Hbits.
Qed.

Lemma anu_short_reply_witness :
  exists s : string,
    AnuWebQRNG.generate_bits (Edge.replying (PList [PInt 255])) 2000 = Ok s /\
    Z.of_nat (String.length s) = 8 /\
    Str.bit_string s = true /\
    Str.contains "Error" s = false.
Proof.
  apply (anu_short_reply (Edge.replying (PList [PInt 255])) 2000
           (Sample.reply (PDict [("data", PList [PInt 255])]))
           (PDict [("data", PList [PInt 255])]) [255]);
    try reflexivity; [lia | repeat constructor; lia].
Defined.

(** X4.  The remote generator keeps the bits of the reply in order: with
    a reply of bytes, the character number [i] of the result (for [i]
    below [num_bits] and below the number of bits received) shows the
    bit [7 - i mod 8] of the value number [i // 8]. *)
Theorem anu_bits_from_reply
    (w : world) (num_bits i : Z) (resp : response) (body : pyobj)
    (data : list Z) :
  requests_get w (AnuWebQRNG.the_request num_bits) = Ok resp ->
  raise_for_status resp = Ok tt ->
  json resp = Ok body ->
  getitem body "data" = Ok (PList (map PInt data)) ->
  Forall (fun x => 0 <= x < 256) data ->
  0 <= i < num_bits ->
  i < 8 * Z.of_nat (List.length data) ->
  exists s : string,
    AnuWebQRNG.generate_bits w num_bits = Ok s /\
    String.get (Z.to_nat i) s
    = Some (bit_char (Z.testbit (nth (Z.to_nat (i / 8)) data 0) (7 - i mod 8))).
Proof.
  intros Hget Hstatus Hjson Hdata Hbytes Hi Hlen.
  eexists. split.
  - apply (generate_bits_ints w num_bits resp body _ Hget Hstatus Hjson Hdata).
    reflexivity.
  - unfold Str.slice_to. destruct (num_bits <? 0) eqn:Hneg; [lia |].
    now apply get_joined_bytes.
Qed.

Lemma anu_bits_from_reply_witness :
  exists s : string,
    AnuWebQRNG.generate_bits Sample.answering 9 = Ok s /\
    String.get 8 s = Some "0"%char.
Proof.
  apply (anu_bits_from_reply Sample.answering 9 8
           (Sample.reply (PDict [("data", PList [PInt 255; PInt 0])]))
           (PDict [("data", PList [PInt 255; PInt 0])]) [255; 0]);
    try reflexivity; try lia. repeat constructor; lia.
Defined.

(** X5.  The remote generator raises exactly when something in the [try]
    block raises an exception that does not derive from [Exception]
    (such as [KeyboardInterrupt]); that exception comes out unchanged. *)
Theorem anu_generate_bits_raises_iff (w : world) (num_bits : Z) (e : exn) :
  AnuWebQRNG.generate_bits w num_bits = Raise e <->
  remote_failure w num_bits e /\ exn_is_Exception e = false.
Proof.
  rewrite <- remote_failure_iff. unfold AnuWebQRNG.generate_bits.
  destruct (AnuWebQRNG.try_body w num_bits) as [s|e0];
    cbn [try_except_Exception].
  - split; [discriminate | intros [[=] _]].
  - destruct (exn_is_Exception e0) eqn:He0; split.
    + discriminate.
    + intros [[= ->] He]. congruence.
    + intros [= ->]. auto.
    + now intros [[= ->] _].
Qed.

Lemma anu_generate_bits_raises_witness :
  AnuWebQRNG.generate_bits Edge.interrupted 2000 = Raise Edge.KeyboardInterrupt.
Proof.
  apply (anu_generate_bits_raises_iff Edge.interrupted 2000).
  split; [apply network_failure |]; reflexivity.
Defined.

Lemma mapM_non_int (xs : list pyobj) :
  existsb (fun x => negb (is_int x)) xs = true ->
  exists e, mapM format_obj_08b xs = Raise e /\ exn_is_Exception e = true.
Proof.
  induction xs as [|x xs IH]; cbn [existsb mapM]; [discriminate |].
  destruct (is_int x) eqn:Hx; cbn [negb orb].
  - intros [e [He Hc]]%IH. exists e. split; [| exact Hc].
    destruct x; try discriminate; cbn [format_obj_08b bind]; now rewrite He.
  - intros _. destruct x; try discriminate; cbn [format_obj_08b bind];
      eexists; split; reflexivity.
Qed.

(** X6.  One value in the reply's list that is not an integer (a float, a
    string, null, a list, an object) spoils the whole reply: the remote
    generator returns the failure sentinel and no part of the bits. *)
Theorem anu_non_integer_data_fails
    (w : world) (num_bits : Z) (resp : response) (body : pyobj)
    (xs : list pyobj) :
  requests_get w (AnuWebQRNG.the_request num_bits) = Ok resp ->
  raise_for_status resp = Ok tt ->
  json resp = Ok body ->
  getitem body "data" = Ok (PList xs) ->
  existsb (fun x => negb (is_int x)) xs = true ->
  exists e : exn,
    mapM format_obj_08b xs = Raise e /\
    AnuWebQRNG.generate_bits w num_bits = Ok ("Error: " ++ exn_str e) /\
    Str.contains "Error" ("Error: " ++ exn_str e) = true.
Proof.
  intros Hget Hstatus Hjson Hdata [e [He Hc]]%mapM_non_int.
  exists e. split; [exact He |]. split.
  - unfold AnuWebQRNG.generate_bits.
    rewrite (try_body_reply w num_bits resp body _ Hget Hstatus Hjson Hdata).
    cbn [iterate bind]. rewrite He. cbn [bind try_except_Exception].
    now rewrite Hc.
  - apply sentinel_contains_Error, (prefix_append "Error: ").
Qed.

Lemma anu_non_integer_data_fails_witness :
  AnuWebQRNG.generate_bits
    (Edge.replying (PList [PInt 255; PFloat (1 # 2); PInt 3])) 16
  = Ok "Error: Unknown format code 'b' for object of type 'float'".
Proof.
  destruct (anu_non_integer_data_fails
              (Edge.replying (PList [PInt 255; PFloat (1 # 2); PInt 3])) 16
              (Sample.reply (PDict [("data", PList [PInt 255; PFloat (1 # 2); PInt 3])]))
              (PDict [("data", PList [PInt 255; PFloat (1 # 2); PInt 3])])
              [PInt 255; PFloat (1 # 2); PInt 3]
              eq_refl eq_refl eq_refl eq_refl eq_refl) as (e & He & Hrun & _).
  injection He as <-. exact Hrun.
Defined.

(** X7.  The remote generator does not check the range of the values
    either: when the first value of the reply is negative, the result
    starts with a minus sign; it is no string of bits, and the runner
    does not take it for a failure. *)
Theorem anu_negative_value_unchecked
    (w : world) (num_bits : Z) (resp : response) (body : pyobj)
    (x : Z) (rest : list Z) :
  1 <= num_bits ->
  requests_get w (AnuWebQRNG.the_request num_bits) = Ok resp ->
  raise_for_status resp = Ok tt ->
  json resp = Ok body ->
  getitem body "data" = Ok (PList (map PInt (x :: rest))) ->
  x < 0 ->
  exists s : string,
    AnuWebQRNG.generate_bits w num_bits = Ok s /\
    String.get 0 s = Some "-"%char /\
    Str.bit_string s = false /\
    Str.contains "Error" s = false.
Proof.
  intros Hn Hget Hstatus Hjson Hdata Hx.
  pose proof (generate_bits_ints w num_bits resp body _ Hget Hstatus Hjson Hdata
                (x :: rest) eq_refl) as Hrun.
  eexists. split; [exact Hrun |].
  assert (Hhead : exists tail,
            Str.slice_to (String.concat "" (map format_08b (x :: rest))) num_bits
            = String "-"%char tail).
  { unfold Str.slice_to. destruct (num_bits <? 0) eqn:Hneg; [lia |].
    cbn [map]. rewrite join_cons. unfold format_08b at 1.
    destruct (x <? 0) eqn:Hsign; [| lia].
    destruct (Z.to_nat num_bits) as [|k] eqn:Hk; [lia |].
    cbn [String.append Str.take]. eauto. }
  destruct Hhead as [tail Hs]. split; [| split].
  - now rewrite Hs.
  - now rewrite Hs.
  - apply no_E_no_Error, forallb_slice_to, forallb_join, Forall_map, Forall_forall.
    intros y _. apply format_08b_no_E.
Qed.

Lemma anu_negative_value_unchecked_witness :
  AnuWebQRNG.generate_bits (Edge.replying (PList [PInt (-1); PInt 0])) 9
    = Ok "-00000010" /\
  Str.bit_string "-00000010" = false /\
  Str.contains "Error" "-00000010" = false.
Proof.
  destruct (anu_negative_value_unchecked
              (Edge.replying (PList [PInt (-1); PInt 0])) 9
              (Sample.reply (PDict [("data", PList [PInt (-1); PInt 0])]))
              (PDict [("data", PList [PInt (-1); PInt 0])]) (-1) [0]
              ltac:(lia) eq_refl eq_refl eq_refl eq_refl ltac:(lia))
    as (s & Hrun & _ & Hbits & Herr).
  assert (Hs : s = "-00000010").
  { cbv in Hrun. now injection Hrun as <-. }
  subst s. auto.
Defined.

(** ** The whole pass of the runner *)

Lemma set_fresh {V : Type} (d : Dict.t V) (k : string) (v : V) :
  ~ In k (Dict.keys d) -> Dict.set d k v = (d ++ [(k, v)])%list.
Proof.
  unfold Dict.keys.
  induction d as [|[k0 v0] d IH]; cbn [Dict.set map fst In app]; intros Hk;
    [reflexivity |].
  destruct (String.eqb k0 k) eqn:E.
  - apply String.eqb_eq in E. tauto.
  - f_equal. apply IH. tauto.
Qed.

Section Pass.
Variable w : world.
Variable target_bits : Z.


(** The dictionary of a pass that returns: what was there, then the
    successful generators in their order. *)
Lemma benchmark_loop_recorded todo : forall results st r st',
  NoDup (map fst todo) ->
  (forall k, In k (map fst todo) -> ~ In k (Dict.keys results)) ->
  benchmark_loop w target_bits todo results st = (Ok r, st') ->
  r = (results ++ recorded w target_bits (clock_reads st) todo)%list.
Proof.
  induction todo as [|[name gen] todo IH]; intros results st r st' Hnd Hfresh Hrun.
  - cbn in Hrun. injection Hrun as <- _. cbn. now rewrite app_nil_r.
  - rewrite benchmark_loop_cons in Hrun. cbn zeta in Hrun.
    cbn [map fst] in Hnd, Hfresh. inversion Hnd as [|? ? Hnotin Hnd']; subst.
    cbn [recorded]. unfold succeeded.
    destruct (generate_bits gen target_bits) as [bits|e]; [| discriminate].
    destruct (Str.contains "Error" bits); cbn [negb app].
    + apply (IH _ _ _ _ Hnd') in Hrun; [exact Hrun |].
      intros k Hk. apply Hfresh. now right.
    + destruct (Qeq_bool (elapsed w (clock_reads st)) 0); [discriminate |].
      apply (IH _ _ _ _ Hnd') in Hrun.
      * rewrite Hrun, set_fresh by (apply Hfresh; now left).
        cbn [clock_reads]. now rewrite <- app_assoc.
      * intros k Hk [-> | Hin]%in_keys_set; [contradiction |].
        revert Hin. apply Hfresh. now right.
Qed.


Lemma keys_recorded first_read todo :
  Dict.keys (recorded w target_bits first_read todo)
  = map fst (filter (fun ng => succeeded target_bits (snd ng)) todo).
Proof.
  unfold Dict.keys. revert first_read.
  induction todo as [|[name gen] todo IH]; intros first_read; [reflexivity |].
  cbn [recorded filter snd]. rewrite map_app, IH.
  now destruct (succeeded target_bits gen).
Qed.

End Pass.

(** X8.  A failure of the simulator ends the benchmark at once: the
    exception leaves [run_benchmark] unchanged after the three heading
    lines and a single reading of the clock, no other generator is
    timed, and the script shows no chart. *)
Theorem simulator_failure_is_fatal (w : world) (arg : option Z) (e : exn)
    (p : process) :
  aer_get_memory w QuantumSimulatorRNG.circuit (target_of arg) = Raise e ->
  run_benchmark w arg initial_state
    = (Raise e,
       {| clock_reads := 1;
          stdout := [header_line (target_of arg); columns_line; rule_line];
          pyplot := [] |}) /\
  (arg = Some 2000 ->
   run_script p w
     = (Raise e,
        {| clock_reads := 1;
           stdout := [header_line 2000; columns_line; rule_line];
           pyplot := [] |})).
Proof.
  intros Hfail.
  assert (Hrun : run_benchmark w arg initial_state
                 = (Raise e,
                    {| clock_reads := 1;
                       stdout := [header_line (target_of arg); columns_line;
                                  rule_line];
                       pyplot := [] |})).
  { rewrite run_benchmark_eq. unfold generators. rewrite benchmark_loop_cons.
    cbn [generate_bits]. unfold QuantumSimulatorRNG.generate_bits.
    rewrite Hfail. reflexivity. }
  split; [exact Hrun |].
  intros ->. change (run_script p w) with (main w initial_state).
  unfold main, io_bind. now rewrite Hrun.
Qed.

Lemma simulator_failure_is_fatal_witness :
  run_script Sample.no_process Edge.broken_backend
  = (Raise Edge.BackendError,
     {| clock_reads := 1;
        stdout := [header_line 2000; columns_line; rule_line];
        pyplot := [] |}).
Proof.
  apply (simulator_failure_is_fatal Edge.broken_backend (Some 2000)
           Edge.BackendError Sample.no_process); reflexivity.
Defined.







(** ** The chart *)

Lemma nth_error_combine_seq {A : Type} (l : list A) : forall start i a,
  nth_error l i = Some a ->
  nth_error (combine (seq start (List.length l)) l) i = Some ((start + i)%nat, a).
Proof.
  induction l as [|x l IH]; intros start i a Hi; [now destruct i |].
  destruct i as [|i]; cbn [List.length seq combine nth_error] in *.
  - injection Hi as ->. now rewrite Nat.add_0_r.
  - rewrite (IH (S start) i a Hi). do 2 f_equal. lia.
Qed.

Lemma nth_error_bar_container (heights : list Q) (i : nat) (v : Q) :
  nth_error heights i = Some v ->
  nth_error (bar_container heights) i
  = Some {| get_x := (inject_Z (Z.of_nat i) - (4 # 10))%Q;
            get_width := (8 # 10)%Q;
            get_height := v |}.
Proof.
  intros Hi. unfold bar_container.
  rewrite nth_error_map, (nth_error_combine_seq heights 0 i v Hi). reflexivity.
Qed.

Lemma length_bar_container (heights : list Q) :
  List.length (bar_container heights) = List.length heights.
Proof.
  unfold bar_container.
  rewrite length_map, length_combine, length_seq. apply Nat.min_id.
Qed.

(** X12.  [plot_results] never raises and touches neither console nor
    clock.  It opens a figure, draws one bar chart with the names and
    the times of the dictionary in its order, sets labels and grid, then
    writes one label for each entry -- centred on the bar (position [i]
    for the entry number [i]), at the height of the bar, showing the
    time with four decimals and an "s" -- and shows the figure last. *)
Theorem plot_results_chart (results : Dict.t Q) (st : io_state) :
  exists calls : list plot_call,
    plot_results results st
      = (Ok tt, {| clock_reads := clock_reads st;
                   stdout := stdout st;
                   pyplot := pyplot st ++ calls |}) /\
    List.length calls = (6 + List.length results)%nat /\
    nth_error calls 1
      = Some (plt_bar (Dict.keys results) (Dict.values results)
                      ["#6929c4"; "#009d9a"; "#1192e8"]) /\
    (forall i name v,
       nth_error results i = Some (name, v) ->
       exists x : Q,
         nth_error calls (5 + i)
           = Some (plt_text x v (Fmt.fixed 4 v ++ "s") "bottom" "center") /\
         (x == inject_Z (Z.of_nat i))%Q /\
         nth_error (Dict.keys results) i = Some name) /\
    nth_error calls (5 + List.length results) = Some plt_show.
Proof.
  eexists. split; [apply plot_results_eq |].
  assert (Hlen : List.length (map annotation (bar_container (Dict.values results)))
                 = List.length results).
  { unfold Dict.values. now rewrite length_map, length_bar_container, length_map. }
  split; [| split; [reflexivity | split]].
  - cbn [app List.length]. rewrite length_app, Hlen. cbn [List.length]. lia.
  - intros i name v Hi.
    assert (Hv : nth_error (Dict.values results) i = Some v).
    { unfold Dict.values. now rewrite nth_error_map, Hi. }
    eexists. split; [| split].
    + cbn [app Nat.add nth_error].
      rewrite nth_error_app1 by (rewrite Hlen; apply nth_error_Some; congruence).
      rewrite nth_error_map, (nth_error_bar_container _ _ _ Hv). reflexivity.
    + cbn [get_x get_width]. field.
    + unfold Dict.keys. now rewrite nth_error_map, Hi.
  - cbn [app Nat.add nth_error].
    rewrite nth_error_app2 by (rewrite Hlen; lia).
    rewrite Hlen, Nat.sub_diag. reflexivity.
Qed.

Lemma plot_results_chart_witness :
  exists x : Q,
    pyplot (snd (plot_results [("Classical OS", 12345 # 10000000)] initial_state))
      = [plt_figure (10, 6);
         plt_bar ["Classical OS"] [12345 # 10000000]
                 ["#6929c4"; "#009d9a"; "#1192e8"];
         plt_ylabel "Time to Generate (Seconds)";
         plt_title "QRNG Simulation Time Comparison";
         plt_grid "y" "--" (7 # 10);
         plt_text x (12345 # 10000000) "0.0012s" "bottom" "center";
         plt_show] /\
    (x == 0)%Q.
Proof.
  destruct (plot_results_chart [("Classical OS", 12345 # 10000000)] initial_state)
    as (calls & Hrun & _ & _ & Hlabels & _).
  destruct (Hlabels 0%nat "Classical OS" (12345 # 10000000) eq_refl)
    as (x & Hx & Hcentre & _).
  exists x. split; [| exact Hcentre].
  rewrite plot_results_eq in Hrun. injection Hrun as Hcalls. subst calls.
  cbn [Nat.add nth_error] in Hx. injection Hx as Hx.
  rewrite <- Hx. reflexivity.
Defined.

(** X13.  When the script's benchmark returns, the chart has one bar for
    each generator that succeeded, in the order of the registry, and no
    bar for a generator that failed; there are at most three bars, as
    many as there are colours, and the figure is shown. *)
Theorem script_chart_omits_failures (p : process) (w : world)
    (r : Dict.t Q) (st : io_state) :
  run_benchmark w (Some 2000) initial_state = (Ok r, st) ->
  exists heights : list Q,
    nth_error (pyplot (snd (run_script p w))) 1
      = Some (plt_bar
                (map fst (filter (fun ng => succeeded 2000 (snd ng)) (generators w)))
                heights ["#6929c4"; "#009d9a"; "#1192e8"]) /\
    List.length heights
      = List.length (filter (fun ng => succeeded 2000 (snd ng)) (generators w)) /\
    (List.length heights <= 3)%nat /\
    (forall name gen bits,
       In (name, gen) (generators w) ->
       generate_bits gen 2000 = Ok bits ->
       Str.contains "Error" bits = true ->
       ~ In name (map fst (filter (fun ng => succeeded 2000 (snd ng))
                                  (generators w)))) /\
    In plt_show (pyplot (snd (run_script p w))).
Proof.
  intros Hrun.
  change (run_script p w) with (main w initial_state).
  unfold main, io_bind. rewrite Hrun, plot_results_eq. cbn [snd pyplot].
  destruct (first_line_of_run w (Some 2000)) as (_ & _ & Hfig).
  rewrite Hrun in Hfig. cbn [snd] in Hfig. rewrite Hfig. cbn [app].
  pose proof Hrun as Hloop. rewrite run_benchmark_eq in Hloop.
  apply benchmark_loop_recorded in Hloop;
    [| apply generators_NoDup | intros k _ []].
  cbn [app clock_reads Dict.empty target_of] in Hloop.
  assert (Hkeys : Dict.keys r
                  = map fst (filter (fun ng => succeeded 2000 (snd ng))
                                    (generators w))).
  { rewrite Hloop. apply keys_recorded. }
  assert (Hlen : List.length (Dict.values r)
                 = List.length (filter (fun ng => succeeded 2000 (snd ng))
                                       (generators w))).
  { unfold Dict.values. rewrite length_map, <- (length_map fst r).
    fold (Dict.keys r). now rewrite Hkeys, length_map. }
  exists (Dict.values r). split; [cbn [nth_error]; now rewrite Hkeys |].
  split; [exact Hlen |]. split; [| split].
  - rewrite Hlen. apply (filter_length_le _ (generators w)).
  - intros name gen bits Hin Hgen Herr [[n g] [Hn Hf]]%in_map_iff.
    cbn [fst] in Hn. subst n. apply filter_In in Hf. destruct Hf as [Hin' Hok].
    rewrite (NoDup_fst_functional _ _ _ _ (generators_NoDup w) Hin' Hin) in Hok.
    cbn [snd] in Hok. unfold succeeded in Hok. now rewrite Hgen, Herr in Hok.
  - do 5 right. apply in_or_app. right. now left.
Qed.

Lemma script_chart_omits_failures_witness :
  exists heights : list Q,
    nth_error (pyplot (snd (run_script Sample.no_process Sample.timing_out))) 1
      = Some (plt_bar ["Local Qiskit Sim"; "Classical OS"] heights
                      ["#6929c4"; "#009d9a"; "#1192e8"]) /\
    List.length heights = 2%nat.
Proof.
  assert (Hrun : exists r st,
            run_benchmark Sample.timing_out (Some 2000) initial_state
            = (Ok r, st)).
  { do 2 eexists. vm_compute. reflexivity. }
  destruct Hrun as (r & st & Hrun).
  destruct (script_chart_omits_failures Sample.no_process _ _ _ Hrun)
    as (heights & Hbar & Hlen & _).
  exists heights. split; [| exact Hlen].
  etransitivity; [exact Hbar |]. vm_compute. reflexivity.
Defined.

(** ** The order of the shots *)

Lemma get_join1 (pieces : list string) :
  Forall (fun s => String.length s = 1%nat) pieces ->
  forall i piece,
    nth_error pieces i = Some piece ->
    String.get i (String.concat "" pieces) = String.get 0 piece.
Proof.
  induction 1 as [|p pieces Hp _ IH]; intros i piece Hi; [now destruct i |].
  rewrite join_cons. destruct i as [|i]; cbn [nth_error] in Hi.
  - injection Hi as ->. symmetry. apply append_correct1. lia.
  - replace (S i) with (i + String.length p)%nat by lia.
    rewrite <- append_correct2. now apply IH.
Qed.

(** X14.  The simulator keeps the order of the shots: when the backend
    hands out outcomes of one character, the character number [i] of the
    result is the outcome of the shot number [i]. *)
Theorem simulator_shot_order (w : world) (num_bits : Z)
    (memory : list string) (i : nat) (outcome : string) :
  aer_get_memory w QuantumSimulatorRNG.circuit num_bits = Ok memory ->
  Forall (fun s => String.length s = 1%nat) memory ->
  nth_error memory i = Some outcome ->
  exists s : string,
    QuantumSimulatorRNG.generate_bits w num_bits = Ok s /\
    String.length s = List.length memory /\
    String.get i s = String.get 0 outcome.
Proof.
  intros Hmem Hone Hi. exists (String.concat "" memory). split; [| split].
  - unfold QuantumSimulatorRNG.generate_bits. now rewrite Hmem.
  - rewrite (length_join 1 _ Hone). lia.
  - now apply get_join1.
Qed.

Lemma simulator_shot_order_witness :
  exists s : string,
    QuantumSimulatorRNG.generate_bits Sample.answering 5 = Ok s /\
    String.length s = 5%nat /\
    String.get 3 s = Some "1"%char.
Proof.
  apply (simulator_shot_order Sample.answering 5 ["0"; "1"; "0"; "1"; "0"] 3 "1");
    [reflexivity | repeat constructor | reflexivity].
Defined.

(** ** Data that is not a list *)

Lemma slice_to_empty (n : Z) : Str.slice_to "" n = "".
Proof.
  unfold Str.slice_to.
  destruct (n <? 0); [destruct (Z.to_nat _) | destruct (Z.to_nat n)]; reflexivity.
Qed.

(** X15.  The remote generator loops over whatever stands under "data".
    Data with nothing to loop over (an empty list, an empty string, an
    empty object) gives the empty string, which the runner takes for a
    success; any other data that is not a list -- null, a number, a
    string, an object -- gives the failure sentinel. *)
Theorem anu_data_not_a_list
    (w : world) (num_bits : Z) (resp : response) (body data : pyobj) :
  requests_get w (AnuWebQRNG.the_request num_bits) = Ok resp ->
  raise_for_status resp = Ok tt ->
  json resp = Ok body ->
  getitem body "data" = Ok data ->
  (iterate data = Ok [] ->
   AnuWebQRNG.generate_bits w num_bits = Ok "") /\
  ((forall l, data <> PList l) ->
   iterate data <> Ok [] ->
   exists e : exn,
     AnuWebQRNG.generate_bits w num_bits = Ok ("Error: " ++ exn_str e)).
Proof.
  intros Hget Hstatus Hjson Hdata.
  unfold AnuWebQRNG.generate_bits.
  rewrite (try_body_reply w num_bits resp body data Hget Hstatus Hjson Hdata).
  split.
  - intros ->. cbn [bind mapM String.concat try_except_Exception].
    now rewrite slice_to_empty.
  - intros Hnolist Hnonempty.
    assert (Hraise : exists e,
              (xs <- iterate data ;; mapM format_obj_08b xs) = Raise e /\
              exn_is_Exception e = true).
    { destruct data as [| b | n | v | s | l | d]; cbn [iterate bind];
        try (eexists; split; reflexivity).
      - apply mapM_non_int. destruct s as [|c s]; [now elim Hnonempty |].
        reflexivity.
      - now elim (Hnolist l).
      - apply mapM_non_int. destruct d as [|[k v] d]; [now elim Hnonempty |].
        reflexivity. }
    destruct Hraise as (e & He & Hc). exists e.
    destruct (iterate data) as [xs|e0]; cbn [bind] in *.
    + rewrite He. cbn [bind try_except_Exception]. now rewrite Hc.
    + injection He as ->. cbn [try_except_Exception]. now rewrite Hc.
Qed.

Lemma anu_data_not_a_list_witness :
  AnuWebQRNG.generate_bits (Edge.replying (PStr "")) 16 = Ok "" /\
  exists e : exn,
    AnuWebQRNG.generate_bits (Edge.replying PNone) 16
    = Ok ("Error: " ++ exn_str e).
Proof.
  split.
  - apply (anu_data_not_a_list (Edge.replying (PStr "")) 16
             (Sample.reply (PDict [("data", PStr "")]))
             (PDict [("data", PStr "")]) (PStr "")); reflexivity.
  - apply (anu_data_not_a_list (Edge.replying PNone) 16
             (Sample.reply (PDict [("data", PNone)]))
             (PDict [("data", PNone)]) PNone); try reflexivity; discriminate.
Defined.
